(** * BBC Hindi news corpus loader (utils_nlp/dataset/bbc_hindi.py)

    A shallow embedding of [load_pandas_df], [load_dataset] and
    [get_label_values].  The three functions are glue code: every step is a
    call into a collaborator (download helper, tar archive, CSV reader,
    label encoder, data-frame sampler, transformer processor, logging).
    The functions are embedded as programs over a signature of collaborator
    calls; a run of a program against an environment yields an outcome
    (a value or a raised exception), the final state of the environment and
    the trace of the calls made, each with what it returned or raised. *)

From Stdlib Require Import List String Ascii Bool Arith ZArith QArith Qabs Lia.
Import ListNotations.

Local Close Scope Q_scope.
Local Open Scope string_scope.

(** ** Python values used by the module *)

(** A Python float.  A finite float is represented by its rational value;
    the comparisons below are the IEEE ones (every comparison with [nan]
    is false). *)
Inductive pyfloat : Type :=
| Finite (q : Q)
| inf
| neg_inf
| nan.

(** [x < y] on Python floats. *)
Definition float_lt (x y : pyfloat) : bool :=
  match x, y with
  | nan, _ | _, nan => false
  | Finite a, Finite b => if Qlt_le_dec a b then true else false
  | Finite _, inf => true
  | Finite _, neg_inf => false
  | inf, _ => false
  | neg_inf, neg_inf => false
  | neg_inf, _ => true
  end.

(** [x > y] on Python floats. *)
Definition float_gt (x y : pyfloat) : bool := float_lt y x.

(** A [str]: either a literal, or the result of [template.format(arg)] for a
    float argument, whose rendering is kept symbolic. *)
Inductive pystr : Type :=
| Lit (s : string)
| Format (template : string) (arg : pyfloat).

Definition format (template : string) (arg : pyfloat) : pystr :=
  Format template arg.

(** An exception instance: its class name and its message. *)
Record Exception : Type := mkException {
  exc_class : string;
  exc_msg : pystr
}.

Definition ValueError (msg : pystr) : Exception :=
  mkException "ValueError" msg.

Definition NotFittedError (msg : pystr) : Exception :=
  mkException "NotFittedError" msg.

(** What a call or a whole program produces: a value, or an exception. *)
Inductive Outcome (A : Type) : Type :=
| Returned (v : A)
| Raised (e : Exception).

Arguments Returned {A} v.
Arguments Raised {A} e.

(** ** Paths and the archive URL *)

(** [s.split(sep)] for a one-character separator. *)
Fixpoint split_on (sep : ascii) (s : string) : list string :=
  match s with
  | EmptyString => [EmptyString]
  | String c rest =>
      if Ascii.eqb c sep then EmptyString :: split_on sep rest
      else match split_on sep rest with
           | [] => [String c EmptyString]
           | w :: ws => String c w :: ws
           end
  end.

(** [l[-1]] on a non-empty list ([split] never returns an empty one). *)
Definition last_item (l : list string) : string := List.last l EmptyString.

Fixpoint ends_with_slash (s : string) : bool :=
  match s with
  | EmptyString => false
  | String c EmptyString => Ascii.eqb c "/"%char
  | String _ rest => ends_with_slash rest
  end.

(** [os.path.join(a, b)] (posixpath). *)
Definition os_path_join (a b : string) : string :=
  match b with
  | String "/"%char _ => b
  | _ => if orb (String.eqb a EmptyString) (ends_with_slash a)
         then a ++ b
         else a ++ "/" ++ b
  end.

Definition URL : string :=
  "https://github.com/NirantK/hindi2vec/releases/" ++
  "download/bbc-hindi-v0.1/bbc-hindiv01.tar.gz".

(** ** Data frames *)

(** A row of the corpus files: column 0 is the class label, column 1 the
    text. *)
Record Row : Type := mkRow {
  label : string;
  text : string
}.

(** A data frame: its rows in order, each with its index label. *)
Definition DataFrame : Type := list (nat * Row).

(** [df[0]] and [df[1]]. *)
Definition column0 (df : DataFrame) : list string :=
  map (fun r => label (snd r)) df.

Definition column1 (df : DataFrame) : list string :=
  map (fun r => text (snd r)) df.

(** [df.reset_index(drop=True)]: the rows are renumbered from 0. *)
Definition reset_index (df : DataFrame) : DataFrame :=
  combine (seq 0 (List.length df)) (map snd df).

(** Python 3 [round] to an integer: to the nearest, ties to the even one. *)
Definition py_round (q : Q) : Z :=
  let n := Qnum q in
  let d := Zpos (Qden q) in
  let f := (n / d)%Z in
  match (2 * (n mod d) ?= d)%Z with
  | Lt => f
  | Gt => (f + 1)%Z
  | Eq => if Z.even f then f else (f + 1)%Z
  end.

(** Modelled from the spec: the size of a frame sampled with ratio r is
    about r times the original size.  [DataFrame.sample] belongs to pandas,
    which draws [round(frac * n)] rows from a frame of [n] rows. *)
Definition sample_size (frac : Q) (n : nat) : nat :=
  Z.to_nat (py_round (frac * inject_Z (Z.of_nat n))%Q).

(** ** The label encoder *)

(** Insertion of a label in a strictly increasing list of labels. *)
Fixpoint insert_unique (x : string) (l : list string) : list string :=
  match l with
  | [] => [x]
  | y :: ys =>
      match String.compare x y with
      | Lt => x :: l
      | Eq => l
      | Gt => y :: insert_unique x ys
      end
  end.

(** [np.unique(y)]: the distinct labels, sorted. *)
Definition np_unique (y : list string) : list string :=
  fold_right insert_unique [] y.

(** Modelled from the spec: the label encoder is a bidirectional mapping
    between category strings and integer IDs.  The class is
    sklearn.preprocessing.LabelEncoder, which the module imports: [fit]
    keeps the sorted distinct labels in [classes_], [transform] maps a
    label to its position among them and raises on a label it has not
    seen, [inverse_transform] maps a position back and raises on a position
    out of range; both raise on an encoder that is not fitted. *)
Record LabelEncoder : Type := mkLabelEncoder {
  classes_ : option (list string)
}.

Definition LabelEncoder_init : LabelEncoder := mkLabelEncoder None.

(** Modelled from the spec: [LabelEncoder.fit(y)]. *)
Definition sk_fit (enc : LabelEncoder) (y : list string) : LabelEncoder :=
  mkLabelEncoder (Some (np_unique y)).

(** Position of a label in the classes. *)
Fixpoint index_of (x : string) (cs : list string) : option nat :=
  match cs with
  | [] => None
  | c :: cs' =>
      if String.eqb x c then Some 0
      else option_map S (index_of x cs')
  end.

Fixpoint encode (cs : list string) (y : list string) : option (list Z) :=
  match y with
  | [] => Some []
  | v :: y' =>
      match index_of v cs, encode cs y' with
      | Some i, Some ids => Some (Z.of_nat i :: ids)
      | _, _ => None
      end
  end.

Definition unseen_labels : pystr := Lit "y contains previously unseen labels".
Definition not_fitted : pystr :=
  Lit "This LabelEncoder instance is not fitted yet.".

(** Modelled from the spec: [LabelEncoder.transform(y)], from category
    strings to integer IDs. *)
Definition sk_transform (enc : LabelEncoder) (y : list string)
  : Outcome (list Z) :=
  match classes_ enc with
  | None => Raised (NotFittedError not_fitted)
  | Some cs =>
      match encode cs y with
      | Some ids => Returned ids
      | None => Raised (ValueError unseen_labels)
      end
  end.

Fixpoint decode (cs : list string) (ids : list Z) : option (list string) :=
  match ids with
  | [] => Some []
  | i :: ids' =>
      if (i <? 0)%Z then None
      else match nth_error cs (Z.to_nat i), decode cs ids' with
           | Some v, Some vs => Some (v :: vs)
           | _, _ => None
           end
  end.

(** Modelled from the spec: [LabelEncoder.inverse_transform(ids)], from
    integer IDs to category strings. *)
Definition sk_inverse_transform (enc : LabelEncoder) (ids : list Z)
  : Outcome (list string) :=
  match classes_ enc with
  | None => Raised (NotFittedError not_fitted)
  | Some cs =>
      match decode cs ids with
      | Some vs => Returned vs
      | None => Raised (ValueError unseen_labels)
      end
  end.

(** ** Collaborators *)

(** An open tar archive. *)
Record TarFile : Type := mkTarFile {
  tar_name : string;
  tar_mode : string
}.

(** The transformer preprocessing class and the datasets it builds. *)
Record Processor : Type := mkProcessor {
  model_name_of : string;
  to_lower_of : bool;
  cache_dir_of : string
}.

Record TensorDataset : Type := mkTensorDataset {
  input_ids_all : list (list Z);
  input_mask_all : list (list Z);
  label_ids_all : list Z
}.

(** The calls the module makes, indexed by the type of what they return.
    [df_sample df frac random_state] is [df.sample(frac=frac,
    random_state=random_state)]; [pd_read_csv path sep encoding header] is
    [pd.read_csv(path, sep=sep, encoding=encoding, header=header)]. *)
Inductive Call : Type -> Type :=
| maybe_download (url filename work_directory : string) : Call string
| tarfile_open (name mode : string) : Call TarFile
| tar_extractall (tar : TarFile) (path : string) : Call unit
| tar_close (tar : TarFile) : Call unit
| pd_read_csv (filepath sep encoding : string) (header : option nat)
  : Call DataFrame
| new_LabelEncoder : Call LabelEncoder
| LabelEncoder_fit (enc : LabelEncoder) (y : list string) : Call LabelEncoder
| LabelEncoder_transform (enc : LabelEncoder) (y : list string)
  : Call (list Z)
| LabelEncoder_inverse_transform (enc : LabelEncoder) (ids : list Z)
  : Call (list string)
| df_sample (df : DataFrame) (frac : pyfloat) (random_state : option Z)
  : Call DataFrame
| new_Processor (model_name : string) (to_lower : bool) (cache_dir : string)
  : Call Processor
| Processor_preprocess (p : Processor) (text : list string)
    (labels : list Z) (max_len : Z) : Call TensorDataset
| logging_warning (msg : pystr) : Call unit
| logging_error (msg : pystr) : Call unit.

(** One entry of a trace: a call and what it produced. *)
Inductive Event : Type :=
| Ev {X : Type} (c : Call X) (o : Outcome X).

(** ** Programs *)

(** Programs over the calls.  [Try body except k] is
    [try: body / except Exception as e: except e], followed by [k]. *)
Inductive Prog : Type -> Type :=
| Ret {R : Type} (r : R) : Prog R
| Throw {R : Type} (e : Exception) : Prog R
| Vis {X R : Type} (c : Call X) (k : X -> Prog R) : Prog R
| Try {X R : Type} (body : Prog X) (except : Exception -> Prog X)
    (k : X -> Prog R) : Prog R.

Fixpoint bind {A B : Type} (p : Prog A) : (A -> Prog B) -> Prog B :=
  match p in Prog A return (A -> Prog B) -> Prog B with
  | Ret r => fun f => f r
  | Throw e => fun _ => Throw e
  | Vis c k => fun f => Vis c (fun x => bind (k x) f)
  | Try body except k => fun f => Try body except (fun x => bind (k x) f)
  end.

Definition call {X : Type} (c : Call X) : Prog X := Vis c Ret.

Declare Scope prog_scope.
Delimit Scope prog_scope with prog.
Notation "x <- c ;; k" := (bind c (fun x => k))
  (at level 61, c at next level, right associativity) : prog_scope.
Notation "' pat <- c ;; k" := (bind c (fun x => match x with pat => k end))
  (at level 61, pat pattern, c at next level, right associativity)
  : prog_scope.
Notation "c ;; k" := (bind c (fun _ => k))
  (at level 61, right associativity) : prog_scope.

(** A program that contains no [Try]: it catches nothing. *)
Fixpoint catches_nothing {R : Type} (p : Prog R) : Prop :=
  match p with
  | Ret _ => True
  | Throw _ => True
  | Vis _ k => forall x, catches_nothing (k x)
  | Try _ _ _ => False
  end.

(** ** Running a program *)

(** The result of a run: the outcome, the final state of the environment
    and the calls made, oldest first. *)
Record Run (W R : Type) : Type := mkRun {
  outcome : Outcome R;
  final : W;
  trace : list Event
}.

Arguments mkRun {W R} outcome final trace.
Arguments outcome {W R} r.
Arguments final {W R} r.
Arguments trace {W R} r.

Definition after {W R : Type} (t : list Event) (r : Run W R) : Run W R :=
  mkRun (outcome r) (final r) (t ++ trace r).

(** The environment answers the calls that leave the process or draw
    random numbers (network, file system, sampling, the processor). *)
Definition Env (W : Type) : Type :=
  forall X : Type, Call X -> W -> Outcome X * W.

Section Running.
Context {W : Type} (env : Env W).

(** The label encoder is the model above, logging returns [None];
    everything else is answered by the environment. *)
Definition interp {X : Type} (c : Call X) (w : W) : Outcome X * W :=
  match c in Call X return Outcome X * W with
  | new_LabelEncoder => (Returned LabelEncoder_init, w)
  | LabelEncoder_fit enc y => (Returned (sk_fit enc y), w)
  | LabelEncoder_transform enc y => (sk_transform enc y, w)
  | LabelEncoder_inverse_transform enc ids =>
      (sk_inverse_transform enc ids, w)
  | logging_warning _ => (Returned tt, w)
  | logging_error _ => (Returned tt, w)
  | c' => env _ c' w
  end.

Fixpoint run {R : Type} (p : Prog R) (w : W) : Run W R :=
  match p with
  | Ret r => mkRun (Returned r) w []
  | Throw e => mkRun (Raised e) w []
  | Vis c k =>
      match interp c w with
      | (Returned x, w1) => after [Ev c (Returned x)] (run (k x) w1)
      | (Raised e, w1) => mkRun (Raised e) w1 [Ev c (Raised e)]
      end
  | Try body except k =>
      let rb := run body w in
      match outcome rb with
      | Returned x => after (trace rb) (run (k x) (final rb))
      | Raised e =>
          let rh := run (except e) (final rb) in
          match outcome rh with
          | Returned x =>
              after (trace rb ++ trace rh) (run (k x) (final rh))
          | Raised e' =>
              mkRun (Raised e') (final rh) (trace rb ++ trace rh)
          end
      end
  end.
End Running.

(** ** The module's functions *)

Local Open Scope prog_scope.

Definition TAB : string := String (ascii_of_nat 9) EmptyString.

(** [load_pandas_df(local_cache_path)] *)
Definition load_pandas_df (local_cache_path : string)
  : Prog (DataFrame * DataFrame) :=
  let zipped_file := last_item (split_on "/"%char URL) in
  call (maybe_download URL zipped_file local_cache_path) ;;
  let zipped_file_path := os_path_join local_cache_path zipped_file in
  tar <- call (tarfile_open zipped_file_path "r:gz") ;;
  call (tar_extractall tar local_cache_path) ;;
  call (tar_close tar) ;;
  let train_csv_file_path :=
    os_path_join local_cache_path "hindi-train.csv" in
  let test_csv_file_path :=
    os_path_join local_cache_path "hindi-test.csv" in
  train_df <- call (pd_read_csv train_csv_file_path TAB "utf-8" None) ;;
  test_df <- call (pd_read_csv test_csv_file_path TAB "utf-8" None) ;;
  Ret (train_df, test_df).

Definition msg_set_train : pystr :=
  Lit "Setting the training sample ratio to 1.0".
Definition msg_set_test : pystr :=
  Lit "Setting the testing sample ratio to 1.0".
Definition msg_invalid_train (r : pyfloat) : pystr :=
  format "Invalid training sample ration: {}" r.
Definition msg_invalid_test (r : pyfloat) : pystr :=
  format "Invalid testing sample ration: {}" r.

(** [load_dataset(local_path, test_fraction, random_seed,
    train_sample_ratio, test_sample_ratio, model_name, to_lower, cache_dir,
    max_len)].  A re-assigned Python variable is a rebinding; [sample] is
    called with [frac] only, so its [random_state] is the default [None]. *)
Definition load_dataset
    (local_path : string)
    (test_fraction : pyfloat)
    (random_seed : option Z)
    (train_sample_ratio test_sample_ratio : pyfloat)
    (model_name : string)
    (to_lower : bool)
    (cache_dir : string)
    (max_len : Z)
  : Prog (TensorDataset * TensorDataset * LabelEncoder) :=
  ' (train_df, test_df) <- load_pandas_df local_path ;;
  label_encoder <- call new_LabelEncoder ;;
  label_encoder <- call (LabelEncoder_fit label_encoder (column0 train_df)) ;;
  train_sample_ratio <-
    (if float_gt train_sample_ratio (Finite 1) then
       let train_sample_ratio := Finite 1 in
       call (logging_warning msg_set_train) ;;
       Ret train_sample_ratio
     else if float_lt train_sample_ratio (Finite 0) then
       call (logging_error (msg_invalid_train train_sample_ratio)) ;;
       Throw (ValueError (msg_invalid_train train_sample_ratio))
     else Ret train_sample_ratio) ;;
  test_sample_ratio <-
    (if float_gt test_sample_ratio (Finite 1) then
       let test_sample_ratio := Finite 1 in
       call (logging_warning msg_set_test) ;;
       Ret test_sample_ratio
     else if float_lt test_sample_ratio (Finite 0) then
       call (logging_error (msg_invalid_test test_sample_ratio)) ;;
       Throw (ValueError (msg_invalid_test test_sample_ratio))
     else Ret test_sample_ratio) ;;
  train_df <-
    (if float_lt train_sample_ratio (Finite 1) then
       sampled <- call (df_sample train_df train_sample_ratio None) ;;
       Ret (reset_index sampled)
     else Ret train_df) ;;
  test_df <-
    (if float_lt test_sample_ratio (Finite 1) then
       sampled <- call (df_sample test_df test_sample_ratio None) ;;
       Ret (reset_index sampled)
     else Ret test_df) ;;
  train_labels <-
    call (LabelEncoder_transform label_encoder (column0 train_df)) ;;
  test_labels <-
    call (LabelEncoder_transform label_encoder (column0 test_df)) ;;
  processor <- call (new_Processor model_name to_lower cache_dir) ;;
  train_dataset <-
    call (Processor_preprocess processor (column1 train_df)
            train_labels max_len) ;;
  test_dataset <-
    call (Processor_preprocess processor (column1 test_df)
            test_labels max_len) ;;
  Ret (train_dataset, test_dataset, label_encoder).

(** [get_label_values(label_encoder, label_ids)] *)
Definition get_label_values (label_encoder : LabelEncoder)
    (label_ids : list Z) : Prog (list string) :=
  call (LabelEncoder_inverse_transform label_encoder label_ids).

Local Close Scope prog_scope.

(** ** What a trace shows *)

(** The [sample] calls of a trace: frame, fraction, random state, result. *)
Definition sample_call (ev : Event)
  : option (DataFrame * pyfloat * option Z * Outcome DataFrame) :=
  match ev with
  | Ev c o =>
      match c in Call X
            return Outcome X ->
                   option (DataFrame * pyfloat * option Z * Outcome DataFrame)
      with
      | df_sample df frac rs => fun o => Some (df, frac, rs, o)
      | _ => fun _ => None
      end o
  end.

(** The [read_csv] calls: path, separator, encoding, header, result. *)
Definition read_csv_call (ev : Event)
  : option (string * string * string * option nat * Outcome DataFrame) :=
  match ev with
  | Ev c o =>
      match c in Call X
            return Outcome X ->
                   option (string * string * string * option nat *
                           Outcome DataFrame)
      with
      | pd_read_csv path sep enc hd => fun o => Some (path, sep, enc, hd, o)
      | _ => fun _ => None
      end o
  end.

(** The [transform] calls: encoder, labels, result. *)
Definition transform_call (ev : Event)
  : option (LabelEncoder * list string * Outcome (list Z)) :=
  match ev with
  | Ev c o =>
      match c in Call X
            return Outcome X ->
                   option (LabelEncoder * list string * Outcome (list Z))
      with
      | LabelEncoder_transform enc y => fun o => Some (enc, y, o)
      | _ => fun _ => None
      end o
  end.

(** The exception of an entry whose call raised. *)
Definition raised_by (ev : Event) : option Exception :=
  match ev with
  | Ev _ (Raised e) => Some e
  | Ev _ (Returned _) => None
  end.

Fixpoint collect {A : Type} (f : Event -> option A) (t : list Event)
  : list A :=
  match t with
  | [] => []
  | ev :: t' =>
      match f ev with
      | Some a => a :: collect f t'
      | None => collect f t'
      end
  end.


(** The trace of a call of [load_pandas_df] that returns. *)
Definition load_trace (local_cache_path path : string) (tar : TarFile)
    (train_df test_df : DataFrame) : list Event :=
  [ Ev (maybe_download URL "bbc-hindiv01.tar.gz" local_cache_path)
       (Returned path);
    Ev (tarfile_open
          (os_path_join local_cache_path "bbc-hindiv01.tar.gz") "r:gz")
       (Returned tar);
    Ev (tar_extractall tar local_cache_path) (Returned tt);
    Ev (tar_close tar) (Returned tt);
    Ev (pd_read_csv (os_path_join local_cache_path "hindi-train.csv")
          TAB "utf-8" None) (Returned train_df);
    Ev (pd_read_csv (os_path_join local_cache_path "hindi-test.csv")
          TAB "utf-8" None) (Returned test_df) ].

(** The two calls with which [load_dataset] creates and fits the encoder. *)
Definition fit_trace (train_df : DataFrame) : list Event :=
  [ Ev new_LabelEncoder (Returned LabelEncoder_init);
    Ev (LabelEncoder_fit LabelEncoder_init (column0 train_df))
       (Returned (sk_fit LabelEncoder_init (column0 train_df))) ].


Definition sample_obeys_frac
    (s : DataFrame * pyfloat * option Z * Outcome DataFrame) : Prop :=
  match s with
  | (df, Finite q, _, Returned sampled) =>
      List.length sampled = sample_size q (List.length df)
  | _ => True
  end.

(** [rows] is [round(q * n)], which is within one half of [q * n]. *)
Definition about_frac (q : Q) (n rows : nat) : Prop :=
  rows = sample_size q n /\
  (Qabs (inject_Z (Z.of_nat rows) - q * inject_Z (Z.of_nat n)) <= 1 # 2)%Q.

(** The ratios the range check accepts as they are. *)
Definition in_unit_interval (r : pyfloat) : bool :=
  match r with
  | Finite q => Qle_bool 0 q && Qle_bool q 1
  | _ => false
  end.

(** ** A small environment

    The state is the list of the paths present on disk.  The download puts
    the archive in the cache directory, the extraction puts the two splits
    next to it, reading a split gives a fixed frame, sampling keeps the
    first [round(frac * n)] rows.  The encoder and logging calls are
    answered by [interp], never by the environment; their cases below
    repeat it. *)

Definition demo_train : DataFrame :=
  [ (0%nat, mkRow "india" "t0"); (1%nat, mkRow "sport" "t1");
    (2%nat, mkRow "india" "t2"); (3%nat, mkRow "business" "t3") ].

Definition demo_test : DataFrame :=
  [ (0%nat, mkRow "sport" "u0"); (1%nat, mkRow "india" "u1") ].

Definition FileNotFoundError (path : string) : Exception :=
  mkException "FileNotFoundError" (Lit path).

Definition on_disk (path : string) (w : list string) : bool :=
  existsb (String.eqb path) w.

Definition put (path : string) (w : list string) : list string :=
  if on_disk path w then w else path :: w.

Fixpoint has_suffix (suffix s : string) : bool :=
  orb (String.eqb suffix s)
      match s with
      | EmptyString => false
      | String _ rest => has_suffix suffix rest
      end.

Definition demo_preprocess (text : list string) (labels : list Z)
  : TensorDataset :=
  mkTensorDataset (map (fun t => [Z.of_nat (String.length t)]) text)
                  (map (fun _ => [1%Z]) text) labels.

Definition demo_env (train test : DataFrame) : Env (list string) :=
  fun X c =>
    match c in Call X return list string -> Outcome X * list string with
    | maybe_download url filename dir => fun w =>
        (Returned (os_path_join dir filename),
         put (os_path_join dir filename) w)
    | tarfile_open name mode => fun w =>
        if on_disk name w then (Returned (mkTarFile name mode), w)
        else (Raised (FileNotFoundError name), w)
    | tar_extractall tar path => fun w =>
        (Returned tt,
         put (os_path_join path "hindi-test.csv")
             (put (os_path_join path "hindi-train.csv") w))
    | tar_close _ => fun w => (Returned tt, w)
    | pd_read_csv path _ _ _ => fun w =>
        if on_disk path w then
          (Returned (if has_suffix "hindi-train.csv" path
                     then train else test), w)
        else (Raised (FileNotFoundError path), w)
    | df_sample df frac _ => fun w =>
        match frac with
        | Finite q =>
            (Returned (firstn (sample_size q (List.length df)) df), w)
        | _ => (Raised (ValueError (Lit "frac")), w)
        end
    | new_Processor m l d => fun w => (Returned (mkProcessor m l d), w)
    | Processor_preprocess _ text labels _ => fun w =>
        (Returned (demo_preprocess text labels), w)
    | new_LabelEncoder => fun w => (Returned LabelEncoder_init, w)
    | LabelEncoder_fit enc y => fun w => (Returned (sk_fit enc y), w)
    | LabelEncoder_transform enc y => fun w => (sk_transform enc y, w)
    | LabelEncoder_inverse_transform enc ids => fun w =>
        (sk_inverse_transform enc ids, w)
    | logging_warning _ => fun w => (Returned tt, w)
    | logging_error _ => fun w => (Returned tt, w)
    end.

(** An environment whose network is down. *)
Definition offline_env : Env (list string) :=
  fun X c w =>
    match c in Call X return Outcome X * list string with
    | maybe_download _ _ _ =>
        (Raised (mkException "ConnectionError" (Lit "unreachable")), w)
    | c' => demo_env demo_train demo_test _ c' w
    end.

Definition demo_run (train_sample_ratio test_sample_ratio : pyfloat)
  : Run (list string) (TensorDataset * TensorDataset * LabelEncoder) :=
  run (demo_env demo_train demo_test)
      (load_dataset "/tmp/bbc" (Finite 1) None
         train_sample_ratio test_sample_ratio
         "bert-base-uncased" true "/tmp/cache" 512)
      [].


(** The [extractall] calls: archive, directory, result. *)
Definition extractall_call (ev : Event)
  : option (TarFile * string * Outcome unit) :=
  match ev with
  | Ev c o =>
      match c in Call X
            return Outcome X -> option (TarFile * string * Outcome unit)
      with
      | tar_extractall tar path => fun o => Some (tar, path, o)
      | _ => fun _ => None
      end o
  end.

(** The archives on which [close] was called. *)
Definition close_call (ev : Event) : option TarFile :=
  match ev with
  | Ev c _ =>
      match c with
      | tar_close tar => Some tar
      | _ => None
      end
  end.

(** The messages logged, each with its level. *)
Definition log_call (ev : Event) : option (string * pystr) :=
  match ev with
  | Ev c _ =>
      match c with
      | logging_warning msg => Some ("warning", msg)
      | logging_error msg => Some ("error", msg)
      | _ => None
      end
  end.

(** The [Processor(...)] calls: model name, lower-casing, cache directory,
    result. *)
Definition processor_call (ev : Event)
  : option (string * bool * string * Outcome Processor) :=
  match ev with
  | Ev c o =>
      match c in Call X
            return Outcome X ->
                   option (string * bool * string * Outcome Processor)
      with
      | new_Processor m l d => fun o => Some (m, l, d, o)
      | _ => fun _ => None
      end o
  end.

(** The [preprocess] calls: processor, text, labels, maximum length,
    result. *)
Definition preprocess_call (ev : Event)
  : option (Processor * list string * list Z * Z * Outcome TensorDataset) :=
  match ev with
  | Ev c o =>
      match c in Call X
            return Outcome X ->
                   option (Processor * list string * list Z * Z *
                           Outcome TensorDataset)
      with
      | Processor_preprocess p t l m => fun o => Some (p, t, l, m, o)
      | _ => fun _ => None
      end o
  end.

(** The Python name of the function or method an entry calls. *)
Definition call_name (ev : Event) : string :=
  match ev with
  | Ev c _ =>
      match c with
      | maybe_download _ _ _ => "maybe_download"
      | tarfile_open _ _ => "tarfile.open"
      | tar_extractall _ _ => "extractall"
      | tar_close _ => "close"
      | pd_read_csv _ _ _ _ => "read_csv"
      | new_LabelEncoder => "LabelEncoder"
      | LabelEncoder_fit _ _ => "fit"
      | LabelEncoder_transform _ _ => "transform"
      | LabelEncoder_inverse_transform _ _ => "inverse_transform"
      | df_sample _ _ _ => "sample"
      | new_Processor _ _ _ => "Processor"
      | Processor_preprocess _ _ _ _ => "preprocess"
      | logging_warning _ => "warning"
      | logging_error _ => "error"
      end
  end.

(** The calls of [load_pandas_df], in the order of its body. *)
Definition load_pandas_df_calls : list string :=
  [ "maybe_download"; "tarfile.open"; "extractall"; "close";
    "read_csv"; "read_csv" ].

(** The ratio after the range check, when the check does not raise. *)
Definition clamped (r : pyfloat) : pyfloat :=
  if float_gt r (Finite 1) then Finite 1 else r.

(** The [sample] calls that [load_dataset] makes for two loaded frames and
    two ratios that pass the range check: one for each frame whose ratio,
    once clamped, is below 1.0. *)
Definition planned_samples (train_df test_df : DataFrame)
    (train_sample_ratio test_sample_ratio : pyfloat)
  : list (DataFrame * pyfloat * option Z) :=
  (if float_lt (clamped train_sample_ratio) (Finite 1)
   then [(train_df, train_sample_ratio, None)] else [])
  ++
  (if float_lt (clamped test_sample_ratio) (Finite 1)
   then [(test_df, test_sample_ratio, None)] else []).

(** The entry of the [sample] call made on a frame, if one was made and
    returned [sampled]. *)
Definition sample_entry (df : DataFrame) (ratio : pyfloat)
    (sampled : option DataFrame)
  : list (DataFrame * pyfloat * option Z * Outcome DataFrame) :=
  match sampled with
  | Some s => [(df, ratio, None, Returned s)]
  | None => []
  end.

(** The frame that [load_dataset] goes on with: the sampled rows with
    their index reset, or the loaded frame when it was not sampled. *)
Definition frame_after (df : DataFrame) (sampled : option DataFrame)
  : DataFrame :=
  match sampled with
  | Some s => reset_index s
  | None => df
  end.

(** An identifier of one of [n] classes. *)
Definition valid_id (n : nat) (i : Z) : Prop :=
  (0 <= i < Z.of_nat n)%Z.

(** An environment in which the archive is corrupt: the extraction
    fails. *)
Definition corrupt_env : Env (list string) :=
  fun X c w =>
    match c in Call X return Outcome X * list string with
    | tar_extractall _ _ =>
        (Raised (mkException "ReadError" (Lit "not a gzip file")), w)
    | c' => demo_env demo_train demo_test _ c' w
    end.

Definition corrupt_loaded : Run (list string) (DataFrame * DataFrame) :=
  run corrupt_env (load_pandas_df "/tmp/bbc") [].

(** Strictly increasing lists of labels. *)
Fixpoint increasing (l : list string) : Prop :=
  match l with
  | [] => True
  | x :: l' => (forall y, In y l' -> String.compare x y = Lt) /\ increasing l'
  end.

Definition demo_loaded : Run (list string) (DataFrame * DataFrame) :=
  run (demo_env demo_train demo_test) (load_pandas_df "/tmp/bbc") [].



Definition offline_run
  : Run (list string) (TensorDataset * TensorDataset * LabelEncoder) :=
  run offline_env
      (load_dataset "/tmp/bbc" (Finite 1) None (Finite 1) (Finite 1)
         "bert-base-uncased" true "/tmp/cache" 512)
      [].

(** * Properties *)

Local Open Scope list_scope.

Arguments os_path_join : simpl never.
Arguments last_item : simpl never.
Arguments split_on : simpl never.
Arguments sk_fit : simpl never.
Arguments sk_transform : simpl never.
Arguments sk_inverse_transform : simpl never.
Arguments column0 : simpl never.
Arguments column1 : simpl never.
Arguments reset_index : simpl never.
Arguments float_lt : simpl never.
Arguments float_gt : simpl never.

Lemma zipped_file_name : last_item (split_on "/"%char URL) = "bbc-hindiv01.tar.gz".
Proof. reflexivity. Qed.

(** Symbolic execution: answer the next call of the environment both ways. *)
(** Symbolic execution of a run in the goal: the next call of the
    environment is answered both ways, or as it was answered before. *)
Ltac next_call env :=
  match goal with
  | E : env ?X ?c ?w = _
    |- context [match env ?X ?c ?w with pair _ _ => _ end] => rewrite E
  | |- context [match env ?X ?c ?w with pair _ _ => _ end] =>
      let o := fresh "o" in
      let w' := fresh "w" in
      let E := fresh "E" in
      let v := fresh "v" in
      let e := fresh "e" in
      destruct (env X c w) as [o w'] eqn:E; destruct o as [v|e];
      [ try match type of v with unit => destruct v end | ]
  end.

Ltac exec env := repeat first [ progress cbn | next_call env ].

Section LoadPandasDf.
Context {W : Type} (env : Env W).
Variable local_cache_path : string.
Variable w : W.

Lemma load_pandas_df_returned (train_df test_df : DataFrame) :
  outcome (run env (load_pandas_df local_cache_path) w)
    = Returned (train_df, test_df) ->
  exists path tar,
    trace (run env (load_pandas_df local_cache_path) w)
      = load_trace local_cache_path path tar train_df test_df.
Proof.
  unfold load_pandas_df, load_trace. rewrite zipped_file_name.
  exec env; intros H; try discriminate.
  inversion H; subst. eauto.
Qed.
(** C6.  [load_pandas_df] reads at most two files, and only the train and
    test splits of the cache directory, as tab-separated UTF-8 without a
    header row.  When it returns, it has downloaded and extracted the
    archive, then read exactly these two, and it returns the two frames
    read, the training one first. *)
Theorem load_pandas_df_reads_two_splits :
  let r := run env (load_pandas_df local_cache_path) w in
  let train_csv_file_path :=
    os_path_join local_cache_path "hindi-train.csv" in
  let test_csv_file_path :=
    os_path_join local_cache_path "hindi-test.csv" in
  (forall s, In s (collect read_csv_call (trace r)) ->
     exists o,
       s = (train_csv_file_path, TAB, "utf-8", None, o) \/
       s = (test_csv_file_path, TAB, "utf-8", None, o)) /\
  (List.length (collect read_csv_call (trace r)) <= 2)%nat /\
  (forall train_df test_df,
     outcome r = Returned (train_df, test_df) ->
     (exists path tar,
        trace r = load_trace local_cache_path path tar train_df test_df) /\
     collect read_csv_call (trace r) =
       [ (train_csv_file_path, TAB, "utf-8", None, Returned train_df);
         (test_csv_file_path, TAB, "utf-8", None, Returned test_df) ]).
Proof.
  cbv zeta. split; [|split].
  - unfold load_pandas_df. rewrite zipped_file_name.
    exec env; intros s Hs; intuition (subst; eauto).
  - unfold load_pandas_df. rewrite zipped_file_name.
    exec env; auto.
  - intros train_df test_df Hret.
    destruct (load_pandas_df_returned train_df test_df Hret)
      as [path [tar Htrace]].
    split; [eauto|]. rewrite Htrace. reflexivity.
Qed.
End LoadPandasDf.

(** ** The label encoder *)

Section Encoder.

Lemma index_of_nth (cs : list string) (v : string) (i : nat) :
  index_of v cs = Some i -> nth_error cs i = Some v.
Proof.
  revert i. induction cs as [|c cs IH]; intros i; simpl; [discriminate|].
  destruct (String.eqb v c) eqn:Hvc.
  - apply String.eqb_eq in Hvc. intros [= <-]. now subst.
  - destruct (index_of v cs) as [j|]; simpl; [|discriminate].
    intros [= <-]. simpl. now apply IH.
Qed.

Lemma index_of_In (cs : list string) (v : string) :
  In v cs <-> exists i, index_of v cs = Some i.
Proof.
  induction cs as [|c cs IH]; simpl.
  - split; [tauto | intros [i H]; discriminate].
  - destruct (String.eqb v c) eqn:Hvc.
    + apply String.eqb_eq in Hvc. split; eauto.
    + apply String.eqb_neq in Hvc. rewrite IH. split.
      * intros [H | [i H]]; [congruence|]. rewrite H. simpl. eauto.
      * intros [i H]. destruct (index_of v cs); [eauto | discriminate].
Qed.

(** [transform] succeeds exactly on the labels of the classes. *)
Lemma encode_Some_iff (cs y : list string) :
  (exists ids, encode cs y = Some ids) <-> (forall v, In v y -> In v cs).
Proof.
  induction y as [|v y IH]; simpl.
  - split; [tauto | eauto].
  - split.
    + intros [ids H] u [<- | Hu].
      * apply index_of_In. destruct (index_of v cs); [eauto | discriminate].
      * apply IH; [|exact Hu].
        destruct (index_of v cs); [|discriminate].
        destruct (encode cs y); [eauto | discriminate].
    + intros H.
      destruct (proj1 (index_of_In cs v) (H v (or_introl eq_refl)))
        as [i ->].
      destruct (proj2 IH (fun u Hu => H u (or_intror Hu))) as [ids ->].
      eauto.
Qed.

Lemma decode_encode (cs y : list string) (ids : list Z) :
  encode cs y = Some ids -> decode cs ids = Some y.
Proof.
  revert ids. induction y as [|v y IH]; intros ids; simpl.
  - now intros [= <-].
  - destruct (index_of v cs) as [i|] eqn:Hi; [|discriminate].
    destruct (encode cs y) as [ids'|]; [|discriminate].
    intros [= <-]. simpl.
    destruct (Z.ltb_spec (Z.of_nat i) 0) as [Hneg|_]; [lia|].
    rewrite Nat2Z.id, (index_of_nth _ _ _ Hi), (IH ids' eq_refl).
    reflexivity.
Qed.

Lemma insert_unique_In (x v : string) (l : list string) :
  In v (insert_unique x l) <-> v = x \/ In v l.
Proof.
  induction l as [|y l IH]; simpl; [intuition congruence|].
  destruct (String.compare x y) eqn:Hc; simpl.
  - apply String.compare_eq_iff in Hc. subst. intuition congruence.
  - intuition congruence.
  - rewrite IH. intuition congruence.
Qed.

(** The classes found by [fit] are the labels it was given. *)
Lemma np_unique_In (y : list string) (v : string) :
  In v (np_unique y) <-> In v y.
Proof.
  induction y as [|x y IH]; simpl; [tauto|].
  rewrite insert_unique_In, IH. intuition congruence.
Qed.

Lemma sk_transform_fitted (enc : LabelEncoder) (cs y : list string) :
  classes_ enc = Some cs ->
  (forall v, In v y -> In v cs) ->
  exists ids, encode cs y = Some ids /\ sk_transform enc y = Returned ids.
Proof.
  intros Hcs Hy. destruct (proj2 (encode_Some_iff cs y) Hy) as [ids H].
  exists ids. unfold sk_transform. now rewrite Hcs, H.
Qed.


Lemma sk_transform_unseen (enc : LabelEncoder) (cs y : list string)
    (v : string) :
  classes_ enc = Some cs -> In v y -> ~ In v cs ->
  sk_transform enc y = Raised (ValueError unseen_labels).
Proof.
  intros Hcs Hv Hn. unfold sk_transform. rewrite Hcs.
  destruct (encode cs y) as [ids|] eqn:H; [|reflexivity].
  exfalso. apply Hn.
  exact (proj1 (encode_Some_iff cs y) (ex_intro _ ids H) v Hv).
Qed.

(** C3.  For a fitted encoder and label values among its classes,
    [get_label_values] applied to the encoder's [transform] of the values
    returns the values. *)
Theorem get_label_values_inverts_transform {W : Type} (env : Env W) (w : W)
    (label_encoder : LabelEncoder) (cs values : list string) :
  classes_ label_encoder = Some cs ->
  (forall v, In v values -> In v cs) ->
  exists label_ids,
    sk_transform label_encoder values = Returned label_ids /\
    run env (get_label_values label_encoder label_ids) w =
      mkRun (Returned values) w
        [Ev (LabelEncoder_inverse_transform label_encoder label_ids)
            (Returned values)] /\
    outcome
      (run env
         (bind (call (LabelEncoder_transform label_encoder values))
               (get_label_values label_encoder)) w) = Returned values.
Proof.
  intros Hcs Hvals.
  destruct (sk_transform_fitted _ _ _ Hcs Hvals) as [ids [Henc Htr]].
  exists ids. split; [exact Htr|].
  assert (Hinv : sk_inverse_transform label_encoder ids = Returned values).
  { unfold sk_inverse_transform.
    now rewrite Hcs, (decode_encode _ _ _ Henc). }
  split; cbn; rewrite ?Htr; cbn; rewrite Hinv; reflexivity.
Qed.
End Encoder.

(** An encoder fitted on three labels, two of which are then encoded. *)
Lemma get_label_values_inverts_transform_witness :
  exists label_ids,
    sk_transform (sk_fit LabelEncoder_init ["sport"; "india"; "sport"])
      ["sport"; "india"] = Returned label_ids /\
    run offline_env
      (get_label_values (sk_fit LabelEncoder_init ["sport"; "india"; "sport"])
         label_ids) [] =
      mkRun (Returned ["sport"; "india"]) []
        [Ev (LabelEncoder_inverse_transform
               (sk_fit LabelEncoder_init ["sport"; "india"; "sport"])
               label_ids)
            (Returned ["sport"; "india"])] /\
    outcome
      (run offline_env
         (bind (call (LabelEncoder_transform
                        (sk_fit LabelEncoder_init ["sport"; "india"; "sport"])
                        ["sport"; "india"]))
               (get_label_values
                  (sk_fit LabelEncoder_init ["sport"; "india"; "sport"])))
         []) = Returned ["sport"; "india"].
Proof.
  apply (get_label_values_inverts_transform offline_env []
           (sk_fit LabelEncoder_init ["sport"; "india"; "sport"])
           ["india"; "sport"] ["sport"; "india"]).
  - reflexivity.
  - simpl. intuition.
Defined.

Section Rounding.
Lemma py_round_near (q : Q) :
  (Qabs (inject_Z (py_round q) - q) <= 1 # 2)%Q.
Proof.
  apply Qabs_Qle_condition.
  destruct q as [n d]. unfold py_round. cbn [Qnum Qden].
  pose proof (Z.div_mod n (Zpos d) ltac:(lia)) as Hdm.
  pose proof (Z.mod_pos_bound n (Zpos d) ltac:(lia)) as Hm.
  set (f := (n / Zpos d)%Z) in *. set (m := (n mod Zpos d)%Z) in *.
  destruct (Z.compare_spec (2 * m) (Zpos d)) as [He|Hl|Hg].
  - destruct (Z.even f); unfold Qle, Qminus, Qplus, Qopp, inject_Z;
      cbn [Qnum Qden]; split; nia.
  - unfold Qle, Qminus, Qplus, Qopp, inject_Z; cbn [Qnum Qden]; split; nia.
  - unfold Qle, Qminus, Qplus, Qopp, inject_Z; cbn [Qnum Qden]; split; nia.
Qed.

Lemma py_round_nonneg (q : Q) : (0 <= q)%Q -> (0 <= py_round q)%Z.
Proof.
  destruct q as [n d]. unfold Qle, py_round. cbn [Qnum Qden]. intros Hn.
  assert (0 <= n / Zpos d)%Z by (apply Z.div_pos; lia).
  destruct (2 * (n mod Zpos d) ?= Zpos d)%Z; [|lia|lia].
  destruct (Z.even (n / Zpos d)); lia.
Qed.

(** [round(q * n)] rows is about [q * n] rows. *)
Lemma sample_size_about (q : Q) (n : nat) :
  (0 <= q)%Q -> about_frac q n (sample_size q n).
Proof.
  intros Hq. split; [reflexivity|]. unfold sample_size.
  rewrite Z2Nat.id; [apply py_round_near|].
  apply py_round_nonneg. apply Qmult_le_0_compat; [exact Hq|].
  unfold Qle, inject_Z. cbn [Qnum Qden]. lia.
Qed.
End Rounding.

Section Frames.
Lemma column0_reset_index (df : DataFrame) :
  column0 (reset_index df) = column0 df.
Proof.
  unfold column0, reset_index.
  rewrite <- (map_map snd label), <- (map_map snd label df).
  f_equal. generalize 0%nat.
  induction df as [|r df IH]; intros k; simpl; [reflexivity|].
  now rewrite IH.
Qed.

Lemma column0_length (df : DataFrame) :
  List.length (column0 df) = List.length df.
Proof. unfold column0. apply length_map. Qed.


(** The labels of a frame are among the classes fitted on it. *)
Lemma fitted_on_own_labels (df : DataFrame) :
  exists ids,
    sk_transform (sk_fit LabelEncoder_init (column0 df)) (column0 df)
      = Returned ids.
Proof.
  destruct (sk_transform_fitted
              (sk_fit LabelEncoder_init (column0 df))
              (np_unique (column0 df)) (column0 df) eq_refl) as [ids [_ H]].
  - intros v Hv. now apply np_unique_In.
  - eauto.
Qed.


End Frames.

(** ** Comparisons of ratios *)

Lemma float_lt_1_1 : float_lt (Finite 1) (Finite 1) = false.
Proof. reflexivity. Qed.

Lemma float_gt_1_1 : float_gt (Finite 1) (Finite 1) = false.
Proof. reflexivity. Qed.

Lemma float_lt_1_0 : float_lt (Finite 1) (Finite 0) = false.
Proof. reflexivity. Qed.

Lemma float_lt_Finite (a b : Q) :
  float_lt (Finite a) (Finite b) = true <-> (a < b)%Q.
Proof.
  unfold float_lt. destruct (Qlt_le_dec a b) as [H|H]; split; auto.
  - discriminate.
  - intros H'. exfalso. exact (Qlt_not_le _ _ H' H).
Qed.

(** A ratio below 0 is not above 1. *)
Lemma float_neg_not_above (r : pyfloat) :
  float_lt r (Finite 0) = true -> float_gt r (Finite 1) = false.
Proof.
  destruct r as [q| | |]; try reflexivity; try discriminate.
  intros H%float_lt_Finite. unfold float_gt.
  destruct (float_lt (Finite 1) (Finite q)) eqn:E; [|reflexivity].
  apply float_lt_Finite in E. exfalso.
  apply (Qlt_irrefl q). apply Qlt_trans with (y := 0%Q); [exact H|].
  apply Qlt_trans with (y := 1%Q); [reflexivity | exact E].
Qed.

Lemma float_between (q : Q) :
  (0 < q)%Q -> (q < 1)%Q ->
  float_gt (Finite q) (Finite 1) = false /\
  float_lt (Finite q) (Finite 1) = true.
Proof.
  intros H0 H1. split; [|now apply float_lt_Finite].
  unfold float_gt. destruct (float_lt (Finite 1) (Finite q)) eqn:E; auto.
  apply float_lt_Finite in E. exfalso.
  exact (Qlt_irrefl q (Qlt_trans _ _ _ H1 E)).
Qed.

Ltac split_Forall :=
  repeat match goal with
    | H : Forall _ (_ :: _) |- _ => inversion H; clear H; subst
    | H : Forall _ [] |- _ => clear H
    end.


Ltac tidy :=
  repeat match goal with
    | H : Some _ = Some _ |- _ => inversion H; clear H; subst
    | H : None = Some _ |- _ => discriminate H
    | H : Returned _ = Raised _ |- _ => discriminate H
    | H : Raised _ = Returned _ |- _ => discriminate H
    | H : Returned _ = Returned _ |- _ => inversion H; clear H; subst
    | H : Raised _ = Raised _ |- _ => inversion H; clear H; subst
    | H : exists _, _ |- _ => destruct H
    | H : _ /\ _ |- _ => destruct H
    | H : _ \/ _ |- _ => destruct H
    end.

(** A program without [Try] raises what the one call that failed raised, or
    what it throws itself; no other call of the run has failed. *)
Lemma uncaught_propagates {W R : Type} (env : Env W) (p : Prog R) :
  catches_nothing p ->
  forall w,
    match outcome (run env p w) with
    | Raised e =>
        collect raised_by (trace (run env p w)) = [e] \/
        collect raised_by (trace (run env p w)) = []
    | Returned _ => collect raised_by (trace (run env p w)) = []
    end.
Proof.
  induction p as [R r|R e|X R c k IH|X R body except k IH]; cbn;
    intros Hp w; auto.
  - destruct (interp env c w) as [[x|e] w1]; cbn; [|auto].
    exact (IH x (Hp x) w1).
  - contradiction.
Qed.

Lemma failed_call_is_outcome {W R : Type} (env : Env W) (p : Prog R) :
  catches_nothing p ->
  forall w e,
    In e (collect raised_by (trace (run env p w))) ->
    outcome (run env p w) = Raised e.
Proof.
  intros Hp w e He. pose proof (uncaught_propagates env p Hp w) as H.
  destruct (outcome (run env p w)) as [v|e'].
  - rewrite H in He. contradiction.
  - destruct H as [H|H]; rewrite H in He; cbn in He; [|contradiction].
    destruct He as [->|[]]. reflexivity.
Qed.

Lemma load_pandas_df_catches_nothing (local_cache_path : string) :
  catches_nothing (load_pandas_df local_cache_path).
Proof. unfold load_pandas_df. cbn. intros. exact I. Qed.

Ltac next_branch :=
  match goal with
  | |- context [if float_gt ?a ?b then _ else _] =>
      let E := fresh "Hgt" in destruct (float_gt a b) eqn:E
  | |- context [if float_lt ?a ?b then _ else _] =>
      let E := fresh "Hlt" in destruct (float_lt a b) eqn:E
  | |- context [match sk_transform ?e ?y with _ => _ end] =>
      let E := fresh "Htr" in destruct (sk_transform e y) eqn:E
  end.

Ltac absurd_ratio :=
  match goal with
  | H : false = true |- _ => discriminate H
  | H : true = false |- _ => discriminate H
  | H1 : float_lt ?r (Finite 0) = true,
    H2 : float_gt ?r (Finite 1) = true |- _ =>
      rewrite (float_neg_not_above r H1) in H2; discriminate H2
  end.

Ltac exec_all env :=
  repeat first
    [ absurd_ratio
    | progress cbn
    | progress (rewrite ?float_lt_1_1, ?float_gt_1_1, ?float_lt_1_0)
    | next_call env
    | next_branch ].

Section LoadDataset.
Context {W : Type} (env : Env W).
Variables (local_path : string) (test_fraction : pyfloat).
Variable random_seed : option Z.
Variables (model_name : string) (to_lower : bool) (cache_dir : string).
Variable max_len : Z.
Variable w : W.

Local Abbreviation LD rt rs :=
  (load_dataset local_path test_fraction random_seed rt rs
     model_name to_lower cache_dir max_len).

(** C8.  Two calls of [load_dataset] that differ only in [random_seed]
    are the same program, and no [sample] call of a run is given a random
    state: the seed is accepted and never used. *)
Theorem random_seed_is_ignored (seed1 seed2 : option Z)
    (train_sample_ratio test_sample_ratio : pyfloat) :
  load_dataset local_path test_fraction seed1
    train_sample_ratio test_sample_ratio
    model_name to_lower cache_dir max_len
  = load_dataset local_path test_fraction seed2
      train_sample_ratio test_sample_ratio
      model_name to_lower cache_dir max_len
  /\
  Forall (fun s => snd (fst s) = None)
    (collect sample_call
       (trace (run env
                 (load_dataset local_path test_fraction seed1
                    train_sample_ratio test_sample_ratio
                    model_name to_lower cache_dir max_len) w))).
Proof.
  split; [reflexivity|].
  unfold load_dataset, load_pandas_df. rewrite zipped_file_name.
  exec_all env; repeat constructor.
Qed.


(** A run in which no call raised and no ratio is below 0 returns.  The
    frames it went on with are the loaded ones, each sampled exactly when
    its clamped ratio is below 1.0; their label columns were encoded by
    the encoder fitted on the whole training column, and the datasets are
    the processor's [preprocess] of their text columns and identifiers. *)
Lemma load_dataset_returns
    (train_sample_ratio test_sample_ratio : pyfloat)
    (train_df test_df : DataFrame) :
  outcome (run env (load_pandas_df local_path) w)
    = Returned (train_df, test_df) ->
  let r := run env (LD train_sample_ratio test_sample_ratio) w in
  let enc := sk_fit LabelEncoder_init (column0 train_df) in
  collect raised_by (trace r) = [] ->
  float_lt train_sample_ratio (Finite 0) = false ->
  float_lt test_sample_ratio (Finite 0) = false ->
  exists processor s_train s_test ids_train ids_test
         train_dataset test_dataset,
    collect sample_call (trace r)
      = sample_entry train_df train_sample_ratio s_train
        ++ sample_entry test_df test_sample_ratio s_test /\
    (s_train = None <->
     float_lt (clamped train_sample_ratio) (Finite 1) = false) /\
    (s_test = None <->
     float_lt (clamped test_sample_ratio) (Finite 1) = false) /\
    sk_transform enc (column0 (frame_after train_df s_train))
      = Returned ids_train /\
    sk_transform enc (column0 (frame_after test_df s_test))
      = Returned ids_test /\
    collect transform_call (trace r)
      = [ (enc, column0 (frame_after train_df s_train), Returned ids_train);
          (enc, column0 (frame_after test_df s_test), Returned ids_test) ] /\
    collect processor_call (trace r)
      = [(model_name, to_lower, cache_dir, Returned processor)] /\
    collect preprocess_call (trace r)
      = [ (processor, column1 (frame_after train_df s_train), ids_train,
           max_len, Returned train_dataset);
          (processor, column1 (frame_after test_df s_test), ids_test,
           max_len, Returned test_dataset) ] /\
    outcome r = Returned (train_dataset, test_dataset, enc).
Proof.
  unfold load_dataset, load_pandas_df, clamped.
  rewrite zipped_file_name. cbv zeta.
  exec_all env; intros Hload Hclean Ht Hs; try discriminate;
    inversion Hload; subst;
    first
      [ eexists _, None, None, _, _, _, _; cbn;
        (split; [reflexivity|])
      | eexists _, (Some _), None, _, _, _, _; cbn;
        (split; [reflexivity|])
      | eexists _, None, (Some _), _, _, _, _; cbn;
        (split; [reflexivity|])
      | eexists _, (Some _), (Some _), _, _, _, _; cbn;
        (split; [reflexivity|]) ];
    (split; [split; intro; first [reflexivity | discriminate]|]);
    (split; [split; intro; first [reflexivity | discriminate]|]);
    repeat split; first [reflexivity | eassumption].
Qed.

Lemma float_above_not_neg (r : pyfloat) :
  float_gt r (Finite 1) = true -> float_lt r (Finite 0) = false.
Proof.
  intros Hgt. destruct (float_lt r (Finite 0)) eqn:Hlt; [|reflexivity].
  rewrite (float_neg_not_above r Hlt) in Hgt. discriminate.
Qed.

Lemma clamped_above (r : pyfloat) :
  float_gt r (Finite 1) = true ->
  float_lt (clamped r) (Finite 1) = false.
Proof. unfold clamped. now intros ->. Qed.

(** The encoder is created and fitted right after the load, before any
    sampling, and a returned encoder is that one. *)
Lemma fit_precedes_sampling
    (train_sample_ratio test_sample_ratio : pyfloat)
    (train_df test_df : DataFrame) :
  outcome (run env (load_pandas_df local_path) w)
    = Returned (train_df, test_df) ->
  let r := run env (LD train_sample_ratio test_sample_ratio) w in
  (exists path tar rest,
     trace r = load_trace local_path path tar train_df test_df
               ++ fit_trace train_df ++ rest /\
     collect sample_call (trace r) = collect sample_call rest) /\
  (forall train_dataset test_dataset label_encoder,
     outcome r = Returned (train_dataset, test_dataset, label_encoder) ->
     classes_ label_encoder = Some (np_unique (column0 train_df))).
Proof.
  unfold load_dataset, load_pandas_df, load_trace, fit_trace.
  rewrite zipped_file_name. cbv zeta.
  exec_all env; intros Hload; try discriminate; inversion Hload; subst;
    (split;
     [ eexists _, _, _; split; reflexivity
     | intros ? ? ? [=]; subst; reflexivity ]).
Qed.

(** C9.  The encoder is created and fitted on the label column of the
    training frame as loaded, before anything is sampled.  Whatever the two
    sample ratios, the encoder that [load_dataset] returns has the classes
    of that column; and [load_dataset] does return it, for every pair of
    ratios not below 0, in a run where no call raises. *)
Theorem encoder_fit_on_full_training_labels
    (train_sample_ratio test_sample_ratio : pyfloat)
    (train_df test_df : DataFrame) :
  outcome (run env (load_pandas_df local_path) w)
    = Returned (train_df, test_df) ->
  let r := run env (LD train_sample_ratio test_sample_ratio) w in
  (exists path tar rest,
     trace r = load_trace local_path path tar train_df test_df
               ++ fit_trace train_df ++ rest /\
     collect sample_call (trace r) = collect sample_call rest) /\
  (forall train_dataset test_dataset label_encoder,
     outcome r = Returned (train_dataset, test_dataset, label_encoder) ->
     classes_ label_encoder = Some (np_unique (column0 train_df))) /\
  (collect raised_by (trace r) = [] ->
   float_lt train_sample_ratio (Finite 0) = false ->
   float_lt test_sample_ratio (Finite 0) = false ->
   exists train_dataset test_dataset label_encoder,
     outcome r = Returned (train_dataset, test_dataset, label_encoder) /\
     label_encoder = sk_fit LabelEncoder_init (column0 train_df) /\
     classes_ label_encoder = Some (np_unique (column0 train_df))).
Proof.
  cbv zeta. intros Hload.
  pose proof (fit_precedes_sampling train_sample_ratio test_sample_ratio
                train_df test_df Hload) as Hfit.
  cbv zeta in Hfit. destruct Hfit as [Htrace Hclasses].
  split; [exact Htrace|]. split; [exact Hclasses|].
  intros Hclean Ht Hs.
  pose proof (load_dataset_returns train_sample_ratio test_sample_ratio
                train_df test_df Hload) as Hret.
  cbv zeta in Hret.
  destruct (Hret Hclean Ht Hs)
    as (p & s1 & s2 & i1 & i2 & tr & te & _ & _ & _ & _ & _ & _ & _ & _ & Hout).
  exists tr, te, (sk_fit LabelEncoder_init (column0 train_df)).
  split; [exact Hout|]. split; reflexivity.
Qed.
(** C4.  In a run that returns, with [sample] drawing [round(frac * n)]
    rows as pandas does, the label column that is encoded for a frame whose
    ratio [q] lies strictly between 0 and 1 has [round(q * n)] rows, [n]
    being the number of rows loaded: within one half of [q * n]. *)
Theorem sampled_frame_size
    (train_sample_ratio test_sample_ratio : pyfloat)
    (train_df test_df : DataFrame)
    (train_dataset test_dataset : TensorDataset)
    (label_encoder : LabelEncoder) :
  outcome (run env (load_pandas_df local_path) w)
    = Returned (train_df, test_df) ->
  let r := run env (LD train_sample_ratio test_sample_ratio) w in
  outcome r = Returned (train_dataset, test_dataset, label_encoder) ->
  Forall sample_obeys_frac (collect sample_call (trace r)) ->
  exists y_train ids_train y_test ids_test,
    collect transform_call (trace r) =
      [ (label_encoder, y_train, Returned ids_train);
        (label_encoder, y_test, Returned ids_test) ] /\
    (forall q, train_sample_ratio = Finite q -> (0 < q)%Q -> (q < 1)%Q ->
       about_frac q (List.length train_df) (List.length y_train)) /\
    (forall q, test_sample_ratio = Finite q -> (0 < q)%Q -> (q < 1)%Q ->
       about_frac q (List.length test_df) (List.length y_test)).
Proof.
  unfold load_dataset, load_pandas_df. rewrite zipped_file_name. cbv zeta.
  exec_all env; intros Hload Hret Hfrac; try discriminate;
    inversion Hload; inversion Hret; subst;
    eexists _, _, _, _; (split; [reflexivity|]);
    split; intros q -> Hq0 Hq1;
    destruct (float_between q Hq0 Hq1) as [Hq2 Hq3];
    try congruence;
    split_Forall; cbn in *;
    rewrite column0_reset_index, column0_length;
    match goal with H : List.length _ = sample_size q _ |- _ => rewrite H end;
    apply sample_size_about; now apply Qlt_le_weak.
Qed.

Lemma load_dataset_catches_nothing
    (train_sample_ratio test_sample_ratio : pyfloat) :
  catches_nothing (LD train_sample_ratio test_sample_ratio).
Proof.
  unfold load_dataset, load_pandas_df.
  repeat first
    [ exact I
    | progress cbn
    | progress (rewrite ?float_lt_1_1, ?float_gt_1_1, ?float_lt_1_0)
    | next_branch
    | match goal with |- forall x : _ * _, _ => intros [? ?] end
    | intro ].
Qed.

(** C7.  Neither function contains an exception handler.  In a run of
    either, an exception raised by a collaborator call is the outcome of the
    run; [load_pandas_df] raises nothing else, and [load_dataset] raises
    nothing else but the [ValueError] of its range check. *)
Theorem collaborator_failures_propagate
    (train_sample_ratio test_sample_ratio : pyfloat) :
  let r0 := run env (load_pandas_df local_path) w in
  let r := run env (LD train_sample_ratio test_sample_ratio) w in
  (catches_nothing (load_pandas_df local_path) /\
   catches_nothing (LD train_sample_ratio test_sample_ratio)) /\
  (forall e, In e (collect raised_by (trace r0)) -> outcome r0 = Raised e) /\
  (forall e, In e (collect raised_by (trace r)) -> outcome r = Raised e) /\
  (forall e, outcome r0 = Raised e -> collect raised_by (trace r0) = [e]) /\
  (forall e, outcome r = Raised e ->
     collect raised_by (trace r) = [e] \/
     (e = ValueError (msg_invalid_train train_sample_ratio) /\
      float_lt train_sample_ratio (Finite 0) = true) \/
     (e = ValueError (msg_invalid_test test_sample_ratio) /\
      float_lt test_sample_ratio (Finite 0) = true)).
Proof.
  cbv zeta.
  pose proof (load_pandas_df_catches_nothing local_path) as H0.
  pose proof (load_dataset_catches_nothing
                train_sample_ratio test_sample_ratio) as H1.
  split; [auto|]. split; [|split; [|split]].
  - now apply failed_call_is_outcome.
  - now apply failed_call_is_outcome.
  - clear H0 H1. unfold load_pandas_df. rewrite zipped_file_name.
    exec env; intros exc Hexc; tidy; reflexivity.
  - clear H0 H1. unfold load_dataset, load_pandas_df.
    rewrite zipped_file_name.
    exec_all env; intros exc Hexc; tidy; auto.
Qed.
Ltac close_clamped :=
  repeat split;
  try reflexivity;
  try (eexists _, _, _; split; reflexivity);
  try (first [ left; reflexivity | right; eexists; reflexivity ]);
  try (intros ? ? ? ?; tidy; reflexivity).

Lemma train_ratio_above_one (train_sample_ratio test_sample_ratio : pyfloat)
    (train_df test_df : DataFrame) :
  outcome (run env (load_pandas_df local_path) w)
    = Returned (train_df, test_df) ->
  float_gt train_sample_ratio (Finite 1) = true ->
  let r := run env (LD train_sample_ratio test_sample_ratio) w in
  let r1 := run env (LD (Finite 1) test_sample_ratio) w in
  (exists path tar rest,
     trace r = load_trace local_path path tar train_df test_df
               ++ fit_trace train_df
               ++ [Ev (logging_warning msg_set_train) (Returned tt)] ++ rest /\
     trace r1 = load_trace local_path path tar train_df test_df
                ++ fit_trace train_df ++ rest) /\
  outcome r = outcome r1 /\
  final r = final r1 /\
  (collect sample_call (trace r) = [] \/
   exists o,
     collect sample_call (trace r) = [(test_df, test_sample_ratio, None, o)])
  /\
  (forall enc y o,
     nth_error (collect transform_call (trace r)) 0 = Some (enc, y, o) ->
     y = column0 train_df).
Proof.
  unfold load_dataset, load_pandas_df, load_trace, fit_trace.
  rewrite zipped_file_name. cbv zeta. intros Hload Hgt. revert Hload.
  exec_all env; intros Hload; try discriminate; inversion Hload; subst;
    close_clamped.
Qed.

Lemma test_ratio_above_one (train_sample_ratio test_sample_ratio : pyfloat)
    (train_df test_df : DataFrame) :
  outcome (run env (load_pandas_df local_path) w)
    = Returned (train_df, test_df) ->
  float_gt test_sample_ratio (Finite 1) = true ->
  float_lt train_sample_ratio (Finite 0) = false ->
  let r := run env (LD train_sample_ratio test_sample_ratio) w in
  let r1 := run env (LD train_sample_ratio (Finite 1)) w in
  (exists path tar warned rest,
     trace r = load_trace local_path path tar train_df test_df
               ++ fit_trace train_df ++ warned
               ++ [Ev (logging_warning msg_set_test) (Returned tt)] ++ rest /\
     trace r1 = load_trace local_path path tar train_df test_df
                ++ fit_trace train_df ++ warned ++ rest /\
     (warned = [] \/
      warned = [Ev (logging_warning msg_set_train) (Returned tt)])) /\
  outcome r = outcome r1 /\
  final r = final r1 /\
  (collect sample_call (trace r) = [] \/
   exists o,
     collect sample_call (trace r) = [(train_df, train_sample_ratio, None, o)])
  /\
  (forall enc y o,
     nth_error (collect transform_call (trace r)) 1 = Some (enc, y, o) ->
     y = column0 test_df).
Proof.
  unfold load_dataset, load_pandas_df, load_trace, fit_trace.
  rewrite zipped_file_name. cbv zeta. intros Hload Hgt Hlt. revert Hload.
  exec_all env; intros Hload; try discriminate; inversion Hload; subst.
  all: repeat split;
    try reflexivity;
    try (first [ left; reflexivity | right; eexists; reflexivity ]);
    try (intros ? ? ? ?; tidy; reflexivity).
  all: first
    [ solve [eexists _, _, [], _; cbn; repeat split; try reflexivity; auto]
    | solve [eexists _, _, [_], _; cbn; repeat split; try reflexivity; auto] ].
Qed.

(** C2, amended.  A ratio above 1.0 does not fail its range check.  For
    the training ratio, once the frames are loaded: a warning is logged
    right after the fit, the run goes on as the run with ratio 1.0 does
    (same calls, outcome and final state) and the training frame is not
    sampled; when moreover the testing ratio is not below 0 and no call
    raises, [load_dataset] returns, having encoded the whole training label
    column and preprocessed the whole training text column.  The same
    holds for the testing ratio once its check is reached, that is when the
    training ratio is not below 0. *)
Theorem ratio_above_one_is_clamped
    (train_sample_ratio test_sample_ratio : pyfloat)
    (train_df test_df : DataFrame) :
  outcome (run env (load_pandas_df local_path) w)
    = Returned (train_df, test_df) ->
  let r := run env (LD train_sample_ratio test_sample_ratio) w in
  let enc := sk_fit LabelEncoder_init (column0 train_df) in
  (float_gt train_sample_ratio (Finite 1) = true ->
   let r1 := run env (LD (Finite 1) test_sample_ratio) w in
   (exists path tar rest,
      trace r = load_trace local_path path tar train_df test_df
                ++ fit_trace train_df
                ++ [Ev (logging_warning msg_set_train) (Returned tt)]
                ++ rest /\
      trace r1 = load_trace local_path path tar train_df test_df
                 ++ fit_trace train_df ++ rest) /\
   outcome r = outcome r1 /\
   final r = final r1 /\
   (collect sample_call (trace r) = [] \/
    exists o,
      collect sample_call (trace r)
        = [(test_df, test_sample_ratio, None, o)]) /\
   (forall enc' y o,
      nth_error (collect transform_call (trace r)) 0 = Some (enc', y, o) ->
      y = column0 train_df) /\
   (float_lt test_sample_ratio (Finite 0) = false ->
    collect raised_by (trace r) = [] ->
    exists processor ids_train y_test text_test ids_test
           train_dataset test_dataset,
      sk_transform enc (column0 train_df) = Returned ids_train /\
      collect transform_call (trace r)
        = [ (enc, column0 train_df, Returned ids_train);
            (enc, y_test, Returned ids_test) ] /\
      collect preprocess_call (trace r)
        = [ (processor, column1 train_df, ids_train, max_len,
             Returned train_dataset);
            (processor, text_test, ids_test, max_len,
             Returned test_dataset) ] /\
      outcome r = Returned (train_dataset, test_dataset, enc)))
  /\
  (float_gt test_sample_ratio (Finite 1) = true ->
   float_lt train_sample_ratio (Finite 0) = false ->
   let r1 := run env (LD train_sample_ratio (Finite 1)) w in
   (exists path tar warned rest,
      trace r = load_trace local_path path tar train_df test_df
                ++ fit_trace train_df ++ warned
                ++ [Ev (logging_warning msg_set_test) (Returned tt)]
                ++ rest /\
      trace r1 = load_trace local_path path tar train_df test_df
                 ++ fit_trace train_df ++ warned ++ rest /\
      (warned = [] \/
       warned = [Ev (logging_warning msg_set_train) (Returned tt)])) /\
   outcome r = outcome r1 /\
   final r = final r1 /\
   (collect sample_call (trace r) = [] \/
    exists o,
      collect sample_call (trace r)
        = [(train_df, train_sample_ratio, None, o)]) /\
   (forall enc' y o,
      nth_error (collect transform_call (trace r)) 1 = Some (enc', y, o) ->
      y = column0 test_df) /\
   (collect raised_by (trace r) = [] ->
    exists processor y_train text_train ids_train ids_test
           train_dataset test_dataset,
      sk_transform enc (column0 test_df) = Returned ids_test /\
      collect transform_call (trace r)
        = [ (enc, y_train, Returned ids_train);
            (enc, column0 test_df, Returned ids_test) ] /\
      collect preprocess_call (trace r)
        = [ (processor, text_train, ids_train, max_len,
             Returned train_dataset);
            (processor, column1 test_df, ids_test, max_len,
             Returned test_dataset) ] /\
      outcome r = Returned (train_dataset, test_dataset, enc))).
Proof.
  cbv zeta. intros Hload.
  pose proof (load_dataset_returns train_sample_ratio test_sample_ratio
                train_df test_df Hload) as Hret.
  cbv zeta in Hret. split.
  - intros Hgt.
    pose proof (train_ratio_above_one train_sample_ratio test_sample_ratio
                  train_df test_df Hload Hgt) as H.
    cbv zeta in H. destruct H as (H1 & H2 & H3 & H4 & H5).
    do 5 (split; [assumption|]).
    intros Hs Hclean.
    destruct (Hret Hclean (float_above_not_neg _ Hgt) Hs)
      as (p & s1 & s2 & i1 & i2 & tr & te
          & _ & Hnone & _ & Htr & _ & Hcalls & _ & Hpre & Hout).
    rewrite (proj2 Hnone (clamped_above _ Hgt)) in *. cbn in *.
    exists p, i1, (column0 (frame_after test_df s2)),
           (column1 (frame_after test_df s2)), i2, tr, te.
    repeat split; assumption.
  - intros Hgt Ht.
    pose proof (test_ratio_above_one train_sample_ratio test_sample_ratio
                  train_df test_df Hload Hgt Ht) as H.
    cbv zeta in H. destruct H as (H1 & H2 & H3 & H4 & H5).
    do 5 (split; [assumption|]).
    intros Hclean.
    destruct (Hret Hclean Ht (float_above_not_neg _ Hgt))
      as (p & s1 & s2 & i1 & i2 & tr & te
          & _ & _ & Hnone & _ & Htr & Hcalls & _ & Hpre & Hout).
    rewrite (proj2 Hnone (clamped_above _ Hgt)) in *. cbn in *.
    exists p, (column0 (frame_after train_df s1)),
           (column1 (frame_after train_df s1)), i1, i2, tr, te.
    repeat split; assumption.
Qed.
End LoadDataset.

(** ** The properties on the small environment *)




(** C2 fails as it stands: with a training ratio of 2.0 [load_dataset]
    raises when the testing ratio is negative or the download fails; with
    a testing ratio of 2.0 and a negative training ratio it raises before
    the testing ratio is looked at, and no warning about it is logged. *)
Lemma ratio_above_one_may_still_raise :
  float_gt (Finite 2) (Finite 1) = true /\
  outcome (demo_run (Finite 2) (Finite (-1)))
    = Raised (ValueError (msg_invalid_test (Finite (-1)))) /\
  outcome (demo_run (Finite (-1)) (Finite 2))
    = Raised (ValueError (msg_invalid_train (Finite (-1)))) /\
  collect log_call (trace (demo_run (Finite (-1)) (Finite 2)))
    = [("error", msg_invalid_train (Finite (-1)))] /\
  outcome
    (run offline_env
       (load_dataset "/tmp/bbc" (Finite 1) None (Finite 2) (Finite 2)
          "bert-base-uncased" true "/tmp/cache" 512) [])
    = Raised (mkException "ConnectionError" (Lit "unreachable")).
Proof. repeat split; vm_compute; reflexivity. Qed.

(** C2, amended, with both ratios above 1: the run returns the datasets
    of the whole frames. *)
Lemma ratio_above_one_is_clamped_witness :
  outcome demo_loaded = Returned (demo_train, demo_test) /\
  float_gt (Finite 2) (Finite 1) = true /\
  float_lt (Finite 3) (Finite 0) = false /\
  collect raised_by (trace (demo_run (Finite 2) (Finite 3))) = [] /\
  exists processor ids_train y_test text_test ids_test
         train_dataset test_dataset,
    sk_transform (sk_fit LabelEncoder_init (column0 demo_train))
      (column0 demo_train) = Returned ids_train /\
    collect transform_call (trace (demo_run (Finite 2) (Finite 3)))
      = [ (sk_fit LabelEncoder_init (column0 demo_train),
           column0 demo_train, Returned ids_train);
          (sk_fit LabelEncoder_init (column0 demo_train),
           y_test, Returned ids_test) ] /\
    collect preprocess_call (trace (demo_run (Finite 2) (Finite 3)))
      = [ (processor, column1 demo_train, ids_train, 512%Z,
           Returned train_dataset);
          (processor, text_test, ids_test, 512%Z,
           Returned test_dataset) ] /\
    outcome (demo_run (Finite 2) (Finite 3))
      = Returned (train_dataset, test_dataset,
                  sk_fit LabelEncoder_init (column0 demo_train)).
Proof.
  split; [vm_compute; reflexivity|]. do 2 (split; [reflexivity|]).
  assert (Hclean : collect raised_by
                     (trace (demo_run (Finite 2) (Finite 3))) = []).
  { vm_compute. reflexivity. }
  split; [exact Hclean|].
  destruct (ratio_above_one_is_clamped (demo_env demo_train demo_test)
              "/tmp/bbc" (Finite 1) None "bert-base-uncased" true
              "/tmp/cache" 512 [] (Finite 2) (Finite 3)
              demo_train demo_test) as [Htrain _].
  - vm_compute; reflexivity.
  - destruct (Htrain eq_refl) as (_ & _ & _ & _ & _ & Hreturns).
    exact (Hreturns eq_refl Hclean).
Defined.

(** C4 with half of the four training rows. *)
Lemma sampled_frame_size_witness :
  outcome demo_loaded = Returned (demo_train, demo_test) /\
  Forall sample_obeys_frac
    (collect sample_call (trace (demo_run (Finite (1#2)) (Finite 1)))) /\
  exists y_train ids_train y_test ids_test,
    collect transform_call (trace (demo_run (Finite (1#2)) (Finite 1))) =
      [ (sk_fit LabelEncoder_init (column0 demo_train),
         y_train, Returned ids_train);
        (sk_fit LabelEncoder_init (column0 demo_train),
         y_test, Returned ids_test) ] /\
    about_frac (1#2) 4 (List.length y_train).
Proof.
  split; [vm_compute; reflexivity|].
  assert (Hfrac : Forall sample_obeys_frac
            (collect sample_call (trace (demo_run (Finite (1#2)) (Finite 1))))).
  { cbv [demo_run]. cbn. repeat constructor. }
  split; [exact Hfrac|].
  destruct (sampled_frame_size (demo_env demo_train demo_test)
              "/tmp/bbc" (Finite 1) None "bert-base-uncased" true
              "/tmp/cache" 512 [] (Finite (1#2)) (Finite 1)
              demo_train demo_test
              (demo_preprocess ["t0"; "t1"] [1%Z; 2%Z])
              (demo_preprocess ["u0"; "u1"] [2%Z; 1%Z])
              (sk_fit LabelEncoder_init (column0 demo_train)))
    as (y1 & i1 & y2 & i2 & Hcalls & Htrain & _).
  - vm_compute; reflexivity.
  - vm_compute; reflexivity.
  - exact Hfrac.
  - exists y1, i1, y2, i2. split; [exact Hcalls|].
    apply (Htrain (1#2)%Q); reflexivity.
Defined.


(** C6 on the small environment. *)
Lemma load_pandas_df_reads_two_splits_witness :
  outcome demo_loaded = Returned (demo_train, demo_test) /\
  collect read_csv_call (trace demo_loaded) =
    [ ("/tmp/bbc/hindi-train.csv", TAB, "utf-8", None, Returned demo_train);
      ("/tmp/bbc/hindi-test.csv", TAB, "utf-8", None, Returned demo_test) ].
Proof.
  split; [vm_compute; reflexivity|].
  destruct (load_pandas_df_reads_two_splits (demo_env demo_train demo_test)
              "/tmp/bbc" []) as (_ & _ & Hret).
  apply (Hret demo_train demo_test). vm_compute; reflexivity.
Defined.

(** C7 with the network down: the failure of the download is the outcome
    of [load_dataset]. *)
Lemma collaborator_failures_propagate_witness :
  In (mkException "ConnectionError" (Lit "unreachable"))
     (collect raised_by (trace offline_run)) /\
  outcome offline_run
    = Raised (mkException "ConnectionError" (Lit "unreachable")).
Proof.
  assert (Hin : In (mkException "ConnectionError" (Lit "unreachable"))
                   (collect raised_by (trace offline_run))).
  { vm_compute. left; reflexivity. }
  split; [exact Hin|].
  destruct (collaborator_failures_propagate offline_env
              "/tmp/bbc" (Finite 1) None "bert-base-uncased" true
              "/tmp/cache" 512 [] (Finite 1) (Finite 1))
    as (_ & _ & Hraised & _).
  apply Hraised. exact Hin.
Defined.

(** C9 with both frames sampled by half: the run returns the encoder
    fitted on all the training labels. *)
Lemma encoder_fit_on_full_training_labels_witness :
  outcome demo_loaded = Returned (demo_train, demo_test) /\
  collect raised_by
    (trace (demo_run (Finite (1#2)) (Finite (1#2)))) = [] /\
  exists train_dataset test_dataset label_encoder,
    outcome (demo_run (Finite (1#2)) (Finite (1#2)))
      = Returned (train_dataset, test_dataset, label_encoder) /\
    label_encoder = sk_fit LabelEncoder_init (column0 demo_train) /\
    classes_ label_encoder = Some ["business"; "india"; "sport"].
Proof.
  split; [vm_compute; reflexivity|].
  assert (Hclean : collect raised_by
            (trace (demo_run (Finite (1#2)) (Finite (1#2)))) = []).
  { vm_compute. reflexivity. }
  split; [exact Hclean|].
  destruct (encoder_fit_on_full_training_labels
              (demo_env demo_train demo_test)
              "/tmp/bbc" (Finite 1) None "bert-base-uncased" true
              "/tmp/cache" 512 [] (Finite (1#2)) (Finite (1#2))
              demo_train demo_test) as (_ & _ & Hreturns).
  - vm_compute; reflexivity.
  - exact (Hreturns Hclean eq_refl eq_refl).
Defined.


(** * Further properties *)

(** ** Sequencing *)

Lemma after_after {W R : Type} (t1 t2 : list Event) (r : Run W R) :
  after t1 (after t2 r) = after (t1 ++ t2) r.
Proof. unfold after. cbn. now rewrite app_assoc. Qed.

Lemma after_nil {W R : Type} (r : Run W R) : after [] r = r.
Proof. now destruct r. Qed.

(** A run of [p] followed by [k]: the run of [p], then the run of [k] on
    what [p] returned, unless [p] raised. *)
Lemma run_bind {W A B : Type} (env : Env W) (p : Prog A) (k : A -> Prog B)
    (w : W) :
  run env (bind p k) w =
    match outcome (run env p w) with
    | Returned x =>
        after (trace (run env p w)) (run env (k x) (final (run env p w)))
    | Raised e => mkRun (Raised e) (final (run env p w)) (trace (run env p w))
    end.
Proof.
  revert B k w.
  induction p as [A r|A e|X A c k' IH|X A body IHbody except IHexc k' IH];
    intros B k w; cbn.
  - now rewrite after_nil.
  - reflexivity.
  - destruct (interp env c w) as [[x|e] w1]; cbn; [|reflexivity].
    rewrite IH. destruct (outcome (run env (k' x) w1)); cbn.
    + now rewrite after_after.
    + reflexivity.
  - destruct (outcome (run env body w)) as [x|e]; cbn.
    + rewrite IH. destruct (outcome (run env (k' x) _)); cbn.
      * now rewrite after_after.
      * reflexivity.
    + destruct (outcome (run env (except e) _)) as [x|e']; cbn;
        [|reflexivity].
      rewrite IH. destruct (outcome (run env (k' x) _)); cbn.
      * now rewrite after_after.
      * reflexivity.
Qed.

Section LoadPandasDfCalls.
Context {W : Type} (env : Env W).
Variable local_cache_path : string.
Variable w : W.

(** X1.  [load_pandas_df] makes its six calls in the order of its body and
    stops at the first that raises: the names of the calls of a run are a
    prefix of the six, all six exactly when the run returns; a call that
    raised is the last call of the run, and what it raised is the
    outcome. *)
Theorem load_pandas_df_call_order :
  let r := run env (load_pandas_df local_cache_path) w in
  map call_name (trace r)
    = firstn (List.length (trace r)) load_pandas_df_calls /\
  (List.length (trace r) <= 6)%nat /\
  ((exists frames, outcome r = Returned frames) <->
   List.length (trace r) = 6%nat /\ collect raised_by (trace r) = []) /\
  (forall e, In e (collect raised_by (trace r)) ->
     last (map raised_by (trace r)) None = Some e /\
     collect raised_by (trace r) = [e] /\
     outcome r = Raised e).
Proof.
  unfold load_pandas_df. rewrite zipped_file_name. cbv zeta.
  exec env; (split; [reflexivity|]); (split; [lia|]);
    (split;
     [ split;
       [ intros [frames H]; try discriminate H; auto
       | intros [Hlen Hnone]; try discriminate; eauto ]
     | intros exc Hin; cbn in Hin;
       repeat match goal with
         | H : _ \/ _ |- _ => destruct H
         | H : False |- _ => destruct H
         end; subst; repeat split ]).
Qed.

(** X2.  There is no [try]/[finally] around the extraction: when
    [extractall] raises, [load_pandas_df] raises the same exception, the
    archive it opened is never closed and no split is read. *)
Theorem failed_extraction_leaves_archive_open
    (tar : TarFile) (path : string) (e : Exception) :
  let r := run env (load_pandas_df local_cache_path) w in
  In (tar, path, Raised e) (collect extractall_call (trace r)) ->
  outcome r = Raised e /\
  collect close_call (trace r) = [] /\
  collect read_csv_call (trace r) = [] /\
  exists downloaded,
    trace r =
      [ Ev (maybe_download URL "bbc-hindiv01.tar.gz" local_cache_path)
           (Returned downloaded);
        Ev (tarfile_open
              (os_path_join local_cache_path "bbc-hindiv01.tar.gz") "r:gz")
           (Returned tar);
        Ev (tar_extractall tar local_cache_path) (Raised e) ].
Proof.
  unfold load_pandas_df. rewrite zipped_file_name. cbv zeta.
  exec env; intros Hin; cbn in Hin;
    repeat match goal with
      | H : _ \/ _ |- _ => destruct H
      | H : False |- _ => destruct H
      | H : (_, _, _) = (_, _, _) |- _ => inversion H; clear H; subst
      end.
  repeat split; eauto.
Qed.
End LoadPandasDfCalls.

(** X2 with a corrupt archive. *)
Lemma failed_extraction_leaves_archive_open_witness :
  In (mkTarFile "/tmp/bbc/bbc-hindiv01.tar.gz" "r:gz", "/tmp/bbc",
      Raised (mkException "ReadError" (Lit "not a gzip file")))
     (collect extractall_call (trace corrupt_loaded)) /\
  collect close_call (trace corrupt_loaded) = [].
Proof.
  assert (Hin : In (mkTarFile "/tmp/bbc/bbc-hindiv01.tar.gz" "r:gz",
                    "/tmp/bbc",
                    Raised (mkException "ReadError" (Lit "not a gzip file")))
                   (collect extractall_call (trace corrupt_loaded))).
  { vm_compute. left; reflexivity. }
  split; [exact Hin|].
  destruct (failed_extraction_leaves_archive_open corrupt_env "/tmp/bbc" []
              _ _ _ Hin) as (_ & Hclose & _).
  exact Hclose.
Defined.

(** X1 on the small environment. *)
Lemma load_pandas_df_call_order_witness :
  (exists frames, outcome demo_loaded = Returned frames) /\
  List.length (trace demo_loaded) = 6%nat.
Proof.
  assert (Hret : exists frames, outcome demo_loaded = Returned frames).
  { eexists. vm_compute. reflexivity. }
  split; [exact Hret|].
  destruct (load_pandas_df_call_order (demo_env demo_train demo_test)
              "/tmp/bbc" []) as (_ & _ & Hiff & _).
  exact (proj1 (proj1 Hiff Hret)).
Defined.

Lemma not_above_not_below (r : pyfloat) :
  in_unit_interval r = true ->
  float_gt r (Finite 1) = false /\ float_lt r (Finite 0) = false.
Proof.
  destruct r as [q| | |]; try discriminate. cbn.
  intros H. apply andb_true_iff in H. destruct H as [H0 H1].
  apply Qle_bool_iff in H0, H1. unfold float_gt, float_lt.
  destruct (Qlt_le_dec 1 q) as [Hc|_];
    [exfalso; exact (Qlt_not_le _ _ Hc H1)|].
  destruct (Qlt_le_dec q 0) as [Hc|_];
    [exfalso; exact (Qlt_not_le _ _ Hc H0)|].
  split; reflexivity.
Qed.

Section LoadDatasetLogging.
Context {W : Type} (env : Env W).
Variables (local_path : string) (test_fraction : pyfloat).
Variable random_seed : option Z.
Variables (model_name : string) (to_lower : bool) (cache_dir : string).
Variable max_len : Z.
Variable w : W.

Local Abbreviation LD rt rs :=
  (load_dataset local_path test_fraction random_seed rt rs
     model_name to_lower cache_dir max_len).

(** X3.  [load_dataset] begins with the run of [load_pandas_df]: the calls
    of that run come first, and when it raises, [load_dataset] raises the
    same exception having done nothing more, so that an invalid ratio is
    then neither logged nor reported. *)
Theorem load_failure_ends_load_dataset
    (train_sample_ratio test_sample_ratio : pyfloat) :
  let r0 := run env (load_pandas_df local_path) w in
  let r := run env (LD train_sample_ratio test_sample_ratio) w in
  (exists rest, trace r = trace r0 ++ rest) /\
  (forall e, outcome r0 = Raised e ->
     r = mkRun (Raised e) (final r0) (trace r0) /\
     collect log_call (trace r) = []).
Proof.
  cbv zeta. unfold load_dataset. rewrite run_bind.
  destruct (outcome (run env (load_pandas_df local_path) w))
    as [frames|e0] eqn:Hout.
  - split; [cbn; eauto|]. intros e [=].
  - split; [exists []; cbn; now rewrite app_nil_r|].
    intros e [= <-]. split; [reflexivity|]. cbn.
    revert Hout. unfold load_pandas_df. rewrite zipped_file_name.
    exec env; intros Hout; try discriminate; reflexivity.
Qed.

(** X4.  Whatever [load_dataset] logs is about a ratio out of range: a
    warning for a ratio above 1, an error for a ratio below 0.  For two
    ratios of [0, 1] it logs nothing. *)
Theorem logs_only_out_of_range_ratios
    (train_sample_ratio test_sample_ratio : pyfloat) :
  let r := run env (LD train_sample_ratio test_sample_ratio) w in
  (forall level msg,
     In (level, msg) (collect log_call (trace r)) ->
     (level = "warning" /\ msg = msg_set_train /\
      float_gt train_sample_ratio (Finite 1) = true) \/
     (level = "error" /\ msg = msg_invalid_train train_sample_ratio /\
      float_lt train_sample_ratio (Finite 0) = true) \/
     (level = "warning" /\ msg = msg_set_test /\
      float_gt test_sample_ratio (Finite 1) = true) \/
     (level = "error" /\ msg = msg_invalid_test test_sample_ratio /\
      float_lt test_sample_ratio (Finite 0) = true)) /\
  (in_unit_interval train_sample_ratio = true ->
   in_unit_interval test_sample_ratio = true ->
   collect log_call (trace r) = []).
Proof.
  cbv zeta.
  assert (Hlogs : forall level msg,
    In (level, msg)
       (collect log_call
          (trace (run env (LD train_sample_ratio test_sample_ratio) w))) ->
    (level = "warning" /\ msg = msg_set_train /\
     float_gt train_sample_ratio (Finite 1) = true) \/
    (level = "error" /\ msg = msg_invalid_train train_sample_ratio /\
     float_lt train_sample_ratio (Finite 0) = true) \/
    (level = "warning" /\ msg = msg_set_test /\
     float_gt test_sample_ratio (Finite 1) = true) \/
    (level = "error" /\ msg = msg_invalid_test test_sample_ratio /\
     float_lt test_sample_ratio (Finite 0) = true)).
  { unfold load_dataset, load_pandas_df. rewrite zipped_file_name.
    exec_all env; intros level msg Hin; cbn in Hin;
      repeat match goal with
        | H : _ \/ _ |- _ => destruct H
        | H : False |- _ => destruct H
        | H : (_, _) = (_, _) |- _ => inversion H; clear H; subst
        end; tauto. }
  split; [exact Hlogs|].
  intros [Ht1 Ht0]%not_above_not_below [Hs1 Hs0]%not_above_not_below.
  destruct (collect log_call _) as [|[level msg] logs]; [reflexivity|].
  exfalso.
  destruct (Hlogs level msg (or_introl eq_refl))
    as [H|[H|[H|H]]]; destruct H as (_ & _ & H); congruence.
Qed.

End LoadDatasetLogging.

(** X4 with the ratios 0.5 and 0. *)
Lemma logs_only_out_of_range_ratios_witness :
  in_unit_interval (Finite (1#2)) = true /\
  in_unit_interval (Finite 0) = true /\
  collect log_call (trace (demo_run (Finite (1#2)) (Finite 0))) = [].
Proof.
  split; [reflexivity|]. split; [reflexivity|].
  destruct (logs_only_out_of_range_ratios (demo_env demo_train demo_test)
              "/tmp/bbc" (Finite 1) None "bert-base-uncased" true
              "/tmp/cache" 512 [] (Finite (1#2)) (Finite 0)) as [_ Hnone].
  apply Hnone; reflexivity.
Defined.

(** X3 with the network down and two negative ratios. *)
Lemma load_failure_ends_load_dataset_witness :
  outcome (run offline_env (load_pandas_df "/tmp/bbc") [])
    = Raised (mkException "ConnectionError" (Lit "unreachable")) /\
  collect log_call
    (trace (run offline_env
              (load_dataset "/tmp/bbc" (Finite 1) None
                 (Finite (-1)) (Finite (-1))
                 "bert-base-uncased" true "/tmp/cache" 512) [])) = [].
Proof.
  assert (Hfail : outcome (run offline_env (load_pandas_df "/tmp/bbc") [])
            = Raised (mkException "ConnectionError" (Lit "unreachable"))).
  { vm_compute. reflexivity. }
  split; [exact Hfail|].
  destruct (load_failure_ends_load_dataset offline_env
              "/tmp/bbc" (Finite 1) None "bert-base-uncased" true
              "/tmp/cache" 512 [] (Finite (-1)) (Finite (-1))) as [_ Hraise].
  exact (proj2 (Hraise _ Hfail)).
Defined.

(** ** Encoding and decoding label columns *)

Lemma encode_length (cs y : list string) (ids : list Z) :
  encode cs y = Some ids -> List.length ids = List.length y.
Proof.
  revert ids. induction y as [|v y IH]; intros ids; simpl.
  - now intros [= <-].
  - destruct (index_of v cs); [|discriminate].
    destruct (encode cs y) as [ids'|]; [|discriminate].
    intros [= <-]. simpl. now rewrite (IH ids' eq_refl).
Qed.

(** What [transform] returned, [inverse_transform] maps back. *)
Lemma transform_then_inverse (enc : LabelEncoder) (y : list string)
    (ids : list Z) :
  sk_transform enc y = Returned ids ->
  sk_inverse_transform enc ids = Returned y /\
  List.length ids = List.length y.
Proof.
  unfold sk_transform, sk_inverse_transform.
  destruct (classes_ enc) as [cs|]; [|discriminate].
  destruct (encode cs y) as [ids'|] eqn:He; [|discriminate].
  intros [= <-]. rewrite (decode_encode _ _ _ He).
  split; [reflexivity | exact (encode_length _ _ _ He)].
Qed.



Lemma column1_length (df : DataFrame) :
  List.length (column1 df) = List.length df.
Proof. unfold column1. apply length_map. Qed.

Lemma sample_size_zero (q : Q) (n : nat) : (q == 0)%Q -> sample_size q n = 0%nat.
Proof.
  destruct q as [a d]. unfold Qeq, sample_size, py_round. cbn. intros Ha.
  assert (a = 0%Z) as -> by lia. cbn. reflexivity.
Qed.

Lemma float_zero (q : Q) :
  (q == 0)%Q ->
  float_gt (Finite q) (Finite 1) = false /\
  float_lt (Finite q) (Finite 0) = false /\
  float_lt (Finite q) (Finite 1) = true.
Proof.
  intros Hq. unfold float_gt, float_lt.
  destruct (Qlt_le_dec 1 q) as [H|_];
    [rewrite Hq in H; exfalso; revert H; apply Qle_not_lt; discriminate|].
  destruct (Qlt_le_dec q 0) as [H|_];
    [rewrite Hq in H; exfalso; exact (Qlt_irrefl _ H)|].
  destruct (Qlt_le_dec q 1) as [_|H];
    [|rewrite Hq in H; exfalso; revert H; apply Qlt_not_le; reflexivity].
  repeat split.
Qed.

Lemma transform_of_nothing (enc : LabelEncoder) (ids : list Z) :
  sk_transform enc [] = Returned ids -> ids = [].
Proof.
  unfold sk_transform. destruct (classes_ enc); [|discriminate].
  cbn. now intros [= <-].
Qed.

Ltac decode_facts :=
  repeat match goal with
    | H : sk_transform ?e ?y = Returned ?ids |- _ =>
        let D := fresh "D" in
        let L := fresh "L" in
        destruct (transform_then_inverse e y ids H) as [D L]; revert H
    end; intros.

Section LoadDatasetData.
Context {W : Type} (env : Env W).
Variables (local_path : string) (test_fraction : pyfloat).
Variable random_seed : option Z.
Variables (model_name : string) (to_lower : bool) (cache_dir : string).
Variable max_len : Z.
Variable w : W.

Local Abbreviation LD rt rs :=
  (load_dataset local_path test_fraction random_seed rt rs
     model_name to_lower cache_dir max_len).

(** X5.  The [sample] calls of a run are the planned ones, in order: one
    on each loaded frame whose ratio is below 1.0, with the ratio as given
    and no random state.  A run that returns has made them all; a run that
    raises has made the first of them, or none. *)
Theorem sample_calls_follow_the_ratios
    (train_sample_ratio test_sample_ratio : pyfloat)
    (train_df test_df : DataFrame) :
  outcome (run env (load_pandas_df local_path) w)
    = Returned (train_df, test_df) ->
  let r := run env (LD train_sample_ratio test_sample_ratio) w in
  let made := map fst (collect sample_call (trace r)) in
  let planned :=
    planned_samples train_df test_df train_sample_ratio test_sample_ratio in
  (exists k, made = firstn k planned) /\
  (forall result, outcome r = Returned result -> made = planned).
Proof.
  unfold load_dataset, load_pandas_df, planned_samples, clamped.
  rewrite zipped_file_name. cbv zeta.
  exec_all env; intros Hload; try discriminate; inversion Hload; subst;
    (split;
     [ first [ exists 2%nat; reflexivity
             | exists 1%nat; reflexivity
             | exists 0%nat; reflexivity ]
     | intros result Hret; try discriminate Hret; reflexivity ]).
Qed.

(** A run that returns had no call raise and no ratio below 0. *)
Lemma returned_run_is_clean
    (train_sample_ratio test_sample_ratio : pyfloat)
    (result : TensorDataset * TensorDataset * LabelEncoder) :
  let r := run env (LD train_sample_ratio test_sample_ratio) w in
  outcome r = Returned result ->
  collect raised_by (trace r) = [] /\
  float_lt train_sample_ratio (Finite 0) = false /\
  float_lt test_sample_ratio (Finite 0) = false.
Proof.
  unfold load_dataset, load_pandas_df. rewrite zipped_file_name. cbv zeta.
  exec_all env; intros Hret; try discriminate;
    repeat split;
    first [ reflexivity | apply float_above_not_neg; assumption ].
Qed.

(** X6.  When [load_dataset] returns, one processor was created with the
    model name, lower-casing flag and cache directory given.  Each dataset
    is its [preprocess] of the text column of the frame the run went on
    with -- the loaded frame, or the rows that its [sample] call returned,
    with their index reset -- together with the identifiers that the
    returned encoder's [transform] gives the label column of that same
    frame, as many as texts, and which [get_label_values] maps back to
    that label column. *)
Theorem returned_labels_decode_to_label_columns
    (train_sample_ratio test_sample_ratio : pyfloat)
    (train_df test_df : DataFrame)
    (train_dataset test_dataset : TensorDataset)
    (label_encoder : LabelEncoder) :
  outcome (run env (load_pandas_df local_path) w)
    = Returned (train_df, test_df) ->
  let r := run env (LD train_sample_ratio test_sample_ratio) w in
  outcome r = Returned (train_dataset, test_dataset, label_encoder) ->
  exists processor s_train s_test ids_train ids_test,
    let df_train := frame_after train_df s_train in
    let df_test := frame_after test_df s_test in
    collect sample_call (trace r)
      = sample_entry train_df train_sample_ratio s_train
        ++ sample_entry test_df test_sample_ratio s_test /\
    (s_train = None <->
     float_lt (clamped train_sample_ratio) (Finite 1) = false) /\
    (s_test = None <->
     float_lt (clamped test_sample_ratio) (Finite 1) = false) /\
    collect processor_call (trace r)
      = [(model_name, to_lower, cache_dir, Returned processor)] /\
    collect preprocess_call (trace r)
      = [ (processor, column1 df_train, ids_train, max_len,
           Returned train_dataset);
          (processor, column1 df_test, ids_test, max_len,
           Returned test_dataset) ] /\
    sk_transform label_encoder (column0 df_train) = Returned ids_train /\
    sk_transform label_encoder (column0 df_test) = Returned ids_test /\
    (forall w',
       outcome (run env (get_label_values label_encoder ids_train) w')
         = Returned (column0 df_train)) /\
    (forall w',
       outcome (run env (get_label_values label_encoder ids_test) w')
         = Returned (column0 df_test)) /\
    List.length ids_train = List.length (column1 df_train) /\
    List.length ids_test = List.length (column1 df_test).
Proof.
  cbv zeta. intros Hload Hret.
  pose proof (returned_run_is_clean train_sample_ratio test_sample_ratio
                _ Hret) as Hclean.
  cbv zeta in Hclean. destruct Hclean as (Hclean & Ht & Hs).
  pose proof (load_dataset_returns env local_path test_fraction random_seed
                model_name to_lower cache_dir max_len w
                train_sample_ratio test_sample_ratio
                train_df test_df Hload) as Hall.
  cbv zeta in Hall.
  destruct (Hall Hclean Ht Hs)
    as (p & s1 & s2 & i1 & i2 & tr & te
        & Hsamples & Hn1 & Hn2 & Htr1 & Htr2 & _ & Hproc & Hpre & Hout).
  rewrite Hret in Hout. injection Hout as <- <- ->.
  destruct (transform_then_inverse _ _ _ Htr1) as [D1 L1].
  destruct (transform_then_inverse _ _ _ Htr2) as [D2 L2].
  exists p, s1, s2, i1, i2.
  repeat match goal with |- _ /\ _ => split end; try assumption.
  - intros w'. cbn. rewrite D1. reflexivity.
  - intros w'. cbn. rewrite D2. reflexivity.
  - rewrite column1_length, <- column0_length. exact L1.
  - rewrite column1_length, <- column0_length. exact L2.
Qed.

(** X8.  The processor is created at most once, and only after both label
    columns were encoded; every [preprocess] call is made on the processor
    that this creation returned, with the [max_len] given. *)
Theorem processor_created_after_encoding
    (train_sample_ratio test_sample_ratio : pyfloat) :
  let r := run env (LD train_sample_ratio test_sample_ratio) w in
  (collect processor_call (trace r) = [] \/
   exists o enc y_train ids_train y_test ids_test,
     collect processor_call (trace r)
       = [(model_name, to_lower, cache_dir, o)] /\
     collect transform_call (trace r)
       = [ (enc, y_train, Returned ids_train);
           (enc, y_test, Returned ids_test) ]) /\
  (forall p t l m o,
     In (p, t, l, m, o) (collect preprocess_call (trace r)) ->
     m = max_len /\
     collect processor_call (trace r)
       = [(model_name, to_lower, cache_dir, Returned p)]).
Proof.
  unfold load_dataset, load_pandas_df. rewrite zipped_file_name. cbv zeta.
  exec_all env;
    (split;
     [ first [ left; reflexivity
             | right; eexists _, _, _, _, _, _; split; reflexivity ]
     | intros p t l m o Hin; cbn in Hin;
       repeat match goal with
         | H : _ \/ _ |- _ => destruct H
         | H : False |- _ => destruct H
         | H : (_, _, _, _, _) = (_, _, _, _, _) |- _ =>
             inversion H; clear H; subst
         end; split; reflexivity ]).
Qed.

(** X9.  A ratio of 0 passes the range check and the frame is sampled with
    [frac] 0: with [sample] drawing [round(frac * n)] rows, a run that
    returns has encoded an empty label column for that frame, while the
    encoder keeps the classes of the whole training column. *)
Theorem zero_ratio_gives_empty_frame
    (train_sample_ratio test_sample_ratio : pyfloat)
    (train_df test_df : DataFrame)
    (train_dataset test_dataset : TensorDataset)
    (label_encoder : LabelEncoder) :
  outcome (run env (load_pandas_df local_path) w)
    = Returned (train_df, test_df) ->
  let r := run env (LD train_sample_ratio test_sample_ratio) w in
  outcome r = Returned (train_dataset, test_dataset, label_encoder) ->
  Forall sample_obeys_frac (collect sample_call (trace r)) ->
  exists y_train ids_train y_test ids_test,
    collect transform_call (trace r) =
      [ (label_encoder, y_train, Returned ids_train);
        (label_encoder, y_test, Returned ids_test) ] /\
    classes_ label_encoder = Some (np_unique (column0 train_df)) /\
    (forall q, train_sample_ratio = Finite q -> (q == 0)%Q ->
       y_train = [] /\ ids_train = []) /\
    (forall q, test_sample_ratio = Finite q -> (q == 0)%Q ->
       y_test = [] /\ ids_test = []).
Proof.
  unfold load_dataset, load_pandas_df. rewrite zipped_file_name. cbv zeta.
  exec_all env; intros Hload Hret Hfrac; try discriminate;
    inversion Hload; inversion Hret; subst;
    eexists _, _, _, _; (split; [reflexivity|]); (split; [reflexivity|]);
    split; intros q -> Hq;
    destruct (float_zero q Hq) as (Hq1 & Hq2 & Hq3);
    try congruence;
    split_Forall; cbn in *;
    match goal with
    | H : List.length ?s = sample_size q _ |- _ =>
        rewrite (sample_size_zero q _ Hq) in H;
        apply length_zero_iff_nil in H; subst s
    end;
    (split; [reflexivity|]);
    match goal with
    | H : sk_transform _ (column0 (reset_index [])) = Returned ?i |- ?i = [] =>
        exact (transform_of_nothing _ _ H)
    end.
Qed.
End LoadDatasetData.

(** ** The classes of a fitted encoder *)

Lemma ascii_compare_refl (c : ascii) : Ascii.compare c c = Eq.
Proof. unfold Ascii.compare. apply N.compare_refl. Qed.

Lemma ascii_compare_lt_trans (a b c : ascii) :
  Ascii.compare a b = Lt -> Ascii.compare b c = Lt -> Ascii.compare a c = Lt.
Proof.
  unfold Ascii.compare. rewrite !N.compare_lt_iff. apply N.lt_trans.
Qed.

Lemma string_compare_refl (s : string) : String.compare s s = Eq.
Proof.
  induction s as [|c s IH]; simpl; [reflexivity|].
  now rewrite ascii_compare_refl.
Qed.

Lemma string_compare_lt_trans (a b c : string) :
  String.compare a b = Lt -> String.compare b c = Lt ->
  String.compare a c = Lt.
Proof.
  revert b c. induction a as [|x a IH]; intros [|y b] [|z c]; simpl;
    try discriminate; try reflexivity.
  destruct (Ascii.compare x y) eqn:Hxy; try discriminate;
    destruct (Ascii.compare y z) eqn:Hyz; try discriminate; intros Hab Hbc.
  - apply Ascii.compare_eq_iff in Hxy, Hyz. subst.
    rewrite ascii_compare_refl. eauto.
  - apply Ascii.compare_eq_iff in Hxy. subst. now rewrite Hyz.
  - apply Ascii.compare_eq_iff in Hyz. subst. now rewrite Hxy.
  - now rewrite (ascii_compare_lt_trans _ _ _ Hxy Hyz).
Qed.


Lemma insert_unique_increasing (x : string) (l : list string) :
  increasing l -> increasing (insert_unique x l).
Proof.
  induction l as [|y l IH]; simpl.
  - intros _. split; [intros z []|exact I].
  - intros [Hy Hl]. destruct (String.compare x y) eqn:Hxy; simpl.
    + split; assumption.
    + split; [|split; assumption].
      intros z [<-|Hz]; [exact Hxy|].
      exact (string_compare_lt_trans _ _ _ Hxy (Hy z Hz)).
    + split; [|exact (IH Hl)].
      intros z Hz. apply insert_unique_In in Hz. destruct Hz as [->|Hz].
      * rewrite String.compare_antisym, Hxy. reflexivity.
      * exact (Hy z Hz).
Qed.

(** The classes kept by [fit] are sorted and distinct. *)
Lemma np_unique_increasing (y : list string) : increasing (np_unique y).
Proof.
  induction y as [|x y IH]; simpl; [exact I|].
  now apply insert_unique_increasing.
Qed.

Lemma increasing_NoDup (l : list string) : increasing l -> NoDup l.
Proof.
  induction l as [|x l IH]; simpl; [constructor|].
  intros [Hx Hl]. constructor; [|exact (IH Hl)].
  intros Hin. specialize (Hx x Hin).
  rewrite string_compare_refl in Hx. discriminate.
Qed.

Lemma index_of_nth_error (cs : list string) (i : nat) (v : string) :
  NoDup cs -> nth_error cs i = Some v -> index_of v cs = Some i.
Proof.
  revert i. induction cs as [|c cs IH]; intros i Hnd; [destruct i; discriminate|].
  inversion Hnd as [|? ? Hc Hcs]; subst. destruct i as [|i]; simpl.
  - intros [= ->]. now rewrite String.eqb_refl.
  - intros Hv. destruct (String.eqb v c) eqn:Hvc.
    + apply String.eqb_eq in Hvc. subst. exfalso. apply Hc.
      exact (nth_error_In _ _ Hv).
    + now rewrite (IH i Hcs Hv).
Qed.

(** On distinct classes, what [inverse_transform] returned, [transform]
    maps back. *)
Lemma encode_decode (cs : list string) (ids : list Z) (vals : list string) :
  NoDup cs -> decode cs ids = Some vals -> encode cs vals = Some ids.
Proof.
  intros Hnd. revert vals. induction ids as [|i ids IH]; intros vals; simpl.
  - now intros [= <-].
  - destruct (Z.ltb_spec i 0) as [|Hi]; [discriminate|].
    destruct (nth_error cs (Z.to_nat i)) as [v|] eqn:Hv; [|discriminate].
    destruct (decode cs ids) as [vs|]; [|discriminate].
    intros [= <-]. simpl.
    rewrite (index_of_nth_error _ _ _ Hnd Hv), (IH vs eq_refl).
    now rewrite Z2Nat.id.
Qed.

Lemma decode_In (cs : list string) (ids : list Z) (vals : list string) :
  decode cs ids = Some vals -> forall v, In v vals -> In v cs.
Proof.
  revert vals. induction ids as [|i ids IH]; intros vals; simpl.
  - intros [= <-] v [].
  - destruct (i <? 0)%Z; [discriminate|].
    destruct (nth_error cs (Z.to_nat i)) as [u|] eqn:Hu; [|discriminate].
    destruct (decode cs ids) as [vs|]; [|discriminate].
    intros [= <-] v [<-|Hv]; [exact (nth_error_In _ _ Hu)|].
    exact (IH vs eq_refl v Hv).
Qed.

(** [inverse_transform] returns exactly on identifiers of classes. *)
Lemma decode_Some_iff (cs : list string) (ids : list Z) :
  (exists vals, decode cs ids = Some vals) <->
  Forall (valid_id (List.length cs)) ids.
Proof.
  unfold valid_id. induction ids as [|i ids IH]; simpl.
  - split; [constructor | eauto].
  - split.
    + intros [vals H].
      destruct (Z.ltb_spec i 0) as [|Hi]; [discriminate|].
      destruct (nth_error cs (Z.to_nat i)) as [v|] eqn:Hv; [|discriminate].
      destruct (decode cs ids) as [vs|]; [|discriminate].
      constructor; [|apply IH; eauto].
      assert (Z.to_nat i < List.length cs)%nat
        by (apply nth_error_Some; congruence).
      lia.
    + intros H. inversion H as [|? ? [Hi0 Hi1] Hrest]; subst.
      destruct (Z.ltb_spec i 0) as [|_]; [lia|].
      destruct (nth_error cs (Z.to_nat i)) as [v|] eqn:Hv.
      * destruct (proj2 IH Hrest) as [vs ->]. eauto.
      * apply nth_error_None in Hv. lia.
Qed.

Lemma decode_length (cs : list string) (ids : list Z) (vals : list string) :
  decode cs ids = Some vals -> List.length vals = List.length ids.
Proof.
  revert vals. induction ids as [|i ids IH]; intros vals; simpl.
  - now intros [= <-].
  - destruct (i <? 0)%Z; [discriminate|].
    destruct (nth_error cs (Z.to_nat i)); [|discriminate].
    destruct (decode cs ids) as [vs|]; [|discriminate].
    intros [= <-]. simpl. now rewrite (IH vs eq_refl).
Qed.

Section GetLabelValues.
Context {W : Type} (env : Env W).
Variable w : W.

(** X10.  For an encoder fitted by [fit], what [get_label_values] returns
    are labels seen during the fit, and the encoder's [transform] maps them
    back to the identifiers given: decoding then encoding is the
    identity. *)
Theorem transform_inverts_get_label_values
    (enc0 : LabelEncoder) (y : list string)
    (label_ids : list Z) (values : list string) :
  let label_encoder := sk_fit enc0 y in
  outcome (run env (get_label_values label_encoder label_ids) w)
    = Returned values ->
  (forall v, In v values -> In v y) /\
  sk_transform label_encoder values = Returned label_ids /\
  outcome
    (run env
       (bind (get_label_values label_encoder label_ids)
             (fun values' =>
                call (LabelEncoder_transform label_encoder values'))) w)
    = Returned label_ids.
Proof.
  cbv zeta. unfold get_label_values, call. cbn.
  unfold sk_inverse_transform, sk_transform, sk_fit. cbn.
  destruct (decode (np_unique y) label_ids) as [vals|] eqn:Hd; cbn;
    [|discriminate].
  intros [= ->].
  pose proof (encode_decode _ _ _
                (increasing_NoDup _ (np_unique_increasing y)) Hd) as He.
  rewrite He. cbn. repeat split.
  intros v Hv. apply np_unique_In. exact (decode_In _ _ _ Hd v Hv).
Qed.

(** X11.  [get_label_values] makes the one call to [inverse_transform] and
    leaves the environment as it was.  On an encoder that is not fitted it
    raises the encoder's [NotFittedError]; on a fitted one it returns, one
    value for each identifier, exactly when every identifier is that of a
    class, and raises a [ValueError] otherwise (a negative identifier, or
    one past the last class). *)
Theorem get_label_values_outcomes
    (label_encoder : LabelEncoder) (label_ids : list Z) :
  let r := run env (get_label_values label_encoder label_ids) w in
  final r = w /\
  map call_name (trace r) = ["inverse_transform"] /\
  match classes_ label_encoder with
  | None => outcome r = Raised (NotFittedError not_fitted)
  | Some cs =>
      (Forall (valid_id (List.length cs)) label_ids ->
       exists values,
         outcome r = Returned values /\
         List.length values = List.length label_ids) /\
      (~ Forall (valid_id (List.length cs)) label_ids ->
       outcome r = Raised (ValueError unseen_labels))
  end.
Proof.
  cbv zeta. unfold get_label_values, call. cbn.
  unfold sk_inverse_transform.
  destruct (classes_ label_encoder) as [cs|]; cbn; [|auto].
  destruct (decode cs label_ids) as [vals|] eqn:Hd; cbn.
  - split; [reflexivity|]. split; [reflexivity|]. split.
    + intros _. exists vals. split; [reflexivity|].
      exact (decode_length _ _ _ Hd).
    + intros Hbad. exfalso. apply Hbad. apply decode_Some_iff. eauto.
  - split; [reflexivity|]. split; [reflexivity|]. split.
    + intros Hok. apply decode_Some_iff in Hok. destruct Hok as [vals Hv].
      congruence.
    + reflexivity.
Qed.
End GetLabelValues.

(** X10 with three identifiers. *)
Lemma transform_inverts_get_label_values_witness :
  outcome
    (run offline_env
       (get_label_values (sk_fit LabelEncoder_init ["sport"; "india"; "sport"])
          [1%Z; 0%Z; 1%Z]) [])
    = Returned ["sport"; "india"; "sport"] /\
  sk_transform (sk_fit LabelEncoder_init ["sport"; "india"; "sport"])
    ["sport"; "india"; "sport"] = Returned [1%Z; 0%Z; 1%Z].
Proof.
  assert (Hret : outcome
    (run offline_env
       (get_label_values (sk_fit LabelEncoder_init ["sport"; "india"; "sport"])
          [1%Z; 0%Z; 1%Z]) [])
    = Returned ["sport"; "india"; "sport"]).
  { vm_compute. reflexivity. }
  split; [exact Hret|].
  exact (proj1 (proj2 (transform_inverts_get_label_values offline_env []
                         LabelEncoder_init ["sport"; "india"; "sport"]
                         [1%Z; 0%Z; 1%Z] ["sport"; "india"; "sport"] Hret))).
Defined.

(** X11 with an identifier past the last class. *)
Lemma get_label_values_outcomes_witness :
  ~ Forall (valid_id 2) [0%Z; 2%Z] /\
  outcome
    (run offline_env
       (get_label_values (sk_fit LabelEncoder_init ["sport"; "india"])
          [0%Z; 2%Z]) [])
    = Raised (ValueError unseen_labels).
Proof.
  assert (Hbad : ~ Forall (valid_id 2) [0%Z; 2%Z]).
  { intros H. inversion H as [|? ? _ H']; subst.
    inversion H' as [|? ? [_ Hlt] _]; subst. cbn in Hlt. lia. }
  split; [exact Hbad|].
  destruct (get_label_values_outcomes offline_env []
              (sk_fit LabelEncoder_init ["sport"; "india"]) [0%Z; 2%Z])
    as (_ & _ & Hcases).
  exact (proj2 Hcases Hbad).
Defined.

(** X5 with a training ratio of 0.5 and a testing ratio of 3. *)
Lemma sample_calls_follow_the_ratios_witness :
  outcome demo_loaded = Returned (demo_train, demo_test) /\
  map fst (collect sample_call (trace (demo_run (Finite (1#2)) (Finite 3))))
    = [(demo_train, Finite (1#2), None)].
Proof.
  split; [vm_compute; reflexivity|].
  destruct (sample_calls_follow_the_ratios (demo_env demo_train demo_test)
              "/tmp/bbc" (Finite 1) None "bert-base-uncased" true
              "/tmp/cache" 512 [] (Finite (1#2)) (Finite 3)
              demo_train demo_test) as [_ Hall].
  - vm_compute; reflexivity.
  - eapply Hall. vm_compute; reflexivity.
Defined.

(** X6 with half of the training rows: the identifiers given to
    [preprocess] decode to the labels of the two rows sampled. *)
Lemma returned_labels_decode_to_label_columns_witness :
  outcome demo_loaded = Returned (demo_train, demo_test) /\
  outcome (demo_run (Finite (1#2)) (Finite 1))
    = Returned (demo_preprocess ["t0"; "t1"] [1%Z; 2%Z],
                demo_preprocess ["u0"; "u1"] [2%Z; 1%Z],
                sk_fit LabelEncoder_init (column0 demo_train)) /\
  exists processor s_train s_test ids_train ids_test,
    collect sample_call (trace (demo_run (Finite (1#2)) (Finite 1)))
      = sample_entry demo_train (Finite (1#2)) s_train
        ++ sample_entry demo_test (Finite 1) s_test /\
    collect preprocess_call (trace (demo_run (Finite (1#2)) (Finite 1)))
      = [ (processor, column1 (frame_after demo_train s_train), ids_train,
           512%Z, Returned (demo_preprocess ["t0"; "t1"] [1%Z; 2%Z]));
          (processor, column1 (frame_after demo_test s_test), ids_test,
           512%Z, Returned (demo_preprocess ["u0"; "u1"] [2%Z; 1%Z])) ] /\
    outcome
      (run (demo_env demo_train demo_test)
         (get_label_values (sk_fit LabelEncoder_init (column0 demo_train))
            ids_train) [])
      = Returned (column0 (frame_after demo_train s_train)).
Proof.
  split; [vm_compute; reflexivity|].
  assert (Hret : outcome (demo_run (Finite (1#2)) (Finite 1))
    = Returned (demo_preprocess ["t0"; "t1"] [1%Z; 2%Z],
                demo_preprocess ["u0"; "u1"] [2%Z; 1%Z],
                sk_fit LabelEncoder_init (column0 demo_train))).
  { vm_compute. reflexivity. }
  split; [exact Hret|].
  destruct (returned_labels_decode_to_label_columns
              (demo_env demo_train demo_test)
              "/tmp/bbc" (Finite 1) None "bert-base-uncased" true
              "/tmp/cache" 512 [] (Finite (1#2)) (Finite 1)
              demo_train demo_test
              (demo_preprocess ["t0"; "t1"] [1%Z; 2%Z])
              (demo_preprocess ["u0"; "u1"] [2%Z; 1%Z])
              (sk_fit LabelEncoder_init (column0 demo_train)))
    as (p & s1 & s2 & i1 & i2 & Hsamples & _ & _ & _ & Hpre & _ & _
        & Htrain & _).
  - vm_compute; reflexivity.
  - exact Hret.
  - exists p, s1, s2, i1, i2.
    split; [exact Hsamples|]. split; [exact Hpre | exact (Htrain [])].
Defined.


(** X8 with both frames whole. *)
Lemma processor_created_after_encoding_witness :
  In (mkProcessor "bert-base-uncased" true "/tmp/cache",
      ["u0"; "u1"], [2%Z; 1%Z], 512%Z,
      Returned (demo_preprocess ["u0"; "u1"] [2%Z; 1%Z]))
     (collect preprocess_call (trace (demo_run (Finite 1) (Finite 1)))) /\
  collect processor_call (trace (demo_run (Finite 1) (Finite 1)))
    = [("bert-base-uncased", true, "/tmp/cache",
        Returned (mkProcessor "bert-base-uncased" true "/tmp/cache"))].
Proof.
  assert (Hin : In (mkProcessor "bert-base-uncased" true "/tmp/cache",
                    ["u0"; "u1"], [2%Z; 1%Z], 512%Z,
                    Returned (demo_preprocess ["u0"; "u1"] [2%Z; 1%Z]))
     (collect preprocess_call (trace (demo_run (Finite 1) (Finite 1))))).
  { vm_compute. right; left; reflexivity. }
  split; [exact Hin|].
  destruct (processor_created_after_encoding (demo_env demo_train demo_test)
              "/tmp/bbc" (Finite 1) None "bert-base-uncased" true
              "/tmp/cache" 512 [] (Finite 1) (Finite 1)) as [_ Hpre].
  exact (proj2 (Hpre _ _ _ _ _ Hin)).
Defined.

(** X9 with a training ratio of 0. *)
Lemma zero_ratio_gives_empty_frame_witness :
  outcome demo_loaded = Returned (demo_train, demo_test) /\
  Forall sample_obeys_frac
    (collect sample_call (trace (demo_run (Finite 0) (Finite 1)))) /\
  exists y_train ids_train y_test ids_test,
    collect transform_call (trace (demo_run (Finite 0) (Finite 1))) =
      [ (sk_fit LabelEncoder_init (column0 demo_train),
         y_train, Returned ids_train);
        (sk_fit LabelEncoder_init (column0 demo_train),
         y_test, Returned ids_test) ] /\
    y_train = [] /\ ids_train = [].
Proof.
  split; [vm_compute; reflexivity|].
  assert (Hfrac : Forall sample_obeys_frac
            (collect sample_call (trace (demo_run (Finite 0) (Finite 1))))).
  { cbv [demo_run]. cbn. repeat constructor. }
  split; [exact Hfrac|].
  destruct (zero_ratio_gives_empty_frame (demo_env demo_train demo_test)
              "/tmp/bbc" (Finite 1) None "bert-base-uncased" true
              "/tmp/cache" 512 [] (Finite 0) (Finite 1)
              demo_train demo_test
              (demo_preprocess [] [])
              (demo_preprocess ["u0"; "u1"] [2%Z; 1%Z])
              (sk_fit LabelEncoder_init (column0 demo_train)))
    as (y1 & i1 & y2 & i2 & Hcalls & _ & Htrain & _).
  - vm_compute; reflexivity.
  - vm_compute; reflexivity.
  - exact Hfrac.
  - exists y1, i1, y2, i2. split; [exact Hcalls|].
    apply (Htrain 0%Q); reflexivity.
Defined.
